(** * screentime: session accounting, usage aggregation, poller fault
    mapping, domain categorisation and aggregator configuration.

    A shallow embedding of
      - internal/storage/session_store.go  (ApplyPoll, endSessionTx,
        CloseStaleCurrentSessions, GetUsageBetween, minTime, maxTime),
      - the storage layer's DB.WithTx and the schema of runMigrations,
      - the Roku poller's Poll and isIdleAppName,
      - internal/linux/categorizer.go (Categorize) and extractDomain,
      - internal/config/config.go (LoadConfig).

    Conventions of the embedding.
      - A [time.Time] is the instant it denotes, in nanoseconds (a [Z]); every
        timestamp the store sees is in UTC and without a monotonic reading, so
        [Before], [After] and the SQL comparisons on DATETIME columns are
        comparisons of instants.
      - A [time.Duration] is an int64 count of nanoseconds; [Sub] saturates as
        in Go.
      - [Duration.Seconds] is a float64 in Go; here it is the exact rational,
        and the conversion [int64(x)] truncates it toward zero.  The rounding
        of float64 is not modelled: Go's value has the same whole seconds for
        every duration shorter than 2^24 seconds.
      - int64 additions are written with their wrap-around ([wrap64]).
      - The SQL store is a pair of row lists and the AUTOINCREMENT counter;
        every driver call may fail, as told by an oracle. *)

From Stdlib Require Import ZArith QArith Lia Ascii String.
From stdpp Require Import gmap strings list fin_maps pretty.

Local Open Scope Z_scope.

(* ===================================================================== *)
(** ** Package time, as far as the store uses it *)
(* ===================================================================== *)

Module time.

Definition Time := Z.
Definition Duration := Z.

Definition Second : Duration := 1000000000.
Definition minDuration : Duration := - 2 ^ 63.
Definition maxDuration : Duration := 2 ^ 63 - 1.

Definition Before (t u : Time) : bool := t <? u.
Definition After (t u : Time) : bool := u <? t.

(** [t.Sub(u)]: the duration t-u, or the maximum (minimum) duration when
    t-u does not fit an int64. *)
Definition Sub (t u : Time) : Duration :=
  if maxDuration <? t - u then maxDuration
  else if t - u <? minDuration then minDuration
  else t - u.

(** [d.Seconds()], exactly. *)
Definition Seconds (d : Duration) : Q := Qmake d 1000000000.

(** The comparison [x < 0] on a float. *)
Definition isNegative (x : Q) : bool := negb (Qle_bool (Qmake 0 1) x).

(** The conversion [int64(x)]: the fraction is discarded. *)
Definition int64 (x : Q) : Z := Z.quot (Qnum x) (Z.pos (Qden x)).

End time.

(** int64 arithmetic wraps around. *)
Definition wrap64 (z : Z) : Z := (z + 2 ^ 63) mod 2 ^ 64 - 2 ^ 63.

(* ===================================================================== *)
(** ** Package storage *)
(* ===================================================================== *)

Module PollUpdate.
Record t := mk {
  DeviceID : string;
  AppID : string;
  AppName : string;
  State : string;
  Timestamp : time.Time
}.
End PollUpdate.

Module CurrentSession.
Record t := mk {
  DeviceID : string;
  AppID : string;
  AppName : string;
  StartTime : time.Time;
  LastSeenTime : time.Time;
  State : string
}.
End CurrentSession.

Module Session.
Record t := mk {
  ID : Z;
  DeviceID : string;
  AppID : string;
  AppName : string;
  StartTime : time.Time;
  EndTime : time.Time;
  DurationSecs : Z;
  EndReason : string
}.
End Session.

Module UsageEntry.
Record t := mk {
  DeviceID : string;
  AppID : string;
  AppName : string;
  TotalSeconds : Z
}.
End UsageEntry.

Module storage.

Import time.

(** *** The database of runMigrations

    Two tables.  [sessions] has an AUTOINCREMENT key, whose last value is
    [sessions_seq]; [current_sessions] has PRIMARY KEY device_id, which
    [insert_current] enforces. *)
Record DB := mkDB {
  sessions : list Session.t;
  sessions_seq : Z;
  current_sessions : list CurrentSession.t
}.

Definition emptyDB : DB := mkDB [] 0 [].

(** *** Transactions: a state and error monad over driver calls *)

Definition error := string.

(** [o n] tells whether the n-th driver call of an operation fails. *)
Definition oracle := nat -> bool.

Definition no_faults : oracle := fun _ => false.

Definition Tx (A : Type) : Type := oracle -> nat * DB -> error + A * (nat * DB).

Definition ret {A} (a : A) : Tx A := fun _ s => inr (a, s).

Definition bind {A B} (m : Tx A) (k : A -> Tx B) : Tx B :=
  fun o s => match m o s with
             | inl e => inl e
             | inr (a, s') => k a o s'
             end.

Notation "'let!' x ':=' m 'in' k" := (bind m (fun x => k))
  (at level 10, x name, m at level 100, k at level 200).
Notation "m ';;' k" := (bind m (fun _ => k))
  (at level 100, k at level 200, right associativity).

(** A statement [tx.ExecContext]: it fails when the driver does, or when the
    statement itself is refused (a constraint). *)
Definition exec (msg : error) (stmt : DB -> option DB) : Tx unit :=
  fun o '(n, db) =>
    if o n then inl msg
    else match stmt db with
         | None => inl msg
         | Some db' => inr (tt, (S n, db'))
         end.

(** A query together with the scan of its rows. *)
Definition query {A} (msg : error) (sel : DB -> A) : Tx A :=
  fun o '(n, db) => if o n then inl msg else inr (sel db, (S n, db)).

Fixpoint forEach {A} (l : list A) (body : A -> Tx unit) : Tx unit :=
  match l with
  | [] => ret tt
  | x :: l' => body x ;; forEach l' body
  end.

(** [DB.WithTx]: begin, run [fn], roll back on error, commit otherwise. *)
Definition WithTx (fn : Tx unit) (o : oracle) (db : DB) : DB * option error :=
  if o 0%nat then (db, Some "begin tx"%string)
  else match fn o (1%nat, db) with
       | inl e => (db, Some e)
       | inr (_, (n, db')) =>
           if o n then (db, Some "commit tx"%string) else (db', None)
       end.

(** *** The SQL statements *)

Definition has_device (dev : string) (c : CurrentSession.t) : bool :=
  String.eqb (CurrentSession.DeviceID c) dev.

(** SELECT ... FROM current_sessions WHERE device_id = ?  (first row) *)
Definition select_current (dev : string) (db : DB) : option CurrentSession.t :=
  List.find (has_device dev) (current_sessions db).

(** INSERT INTO current_sessions ... VALUES (?, ?, ?, ?, ?, 'active') *)
Definition insert_current (dev app name : string) (st ls : Time) (db : DB)
  : option DB :=
  if existsb (has_device dev) (current_sessions db) then None
  else Some (mkDB (sessions db) (sessions_seq db)
               (current_sessions db ++
                  [CurrentSession.mk dev app name st ls "active"])).

Definition set_last_seen (ts : Time) (c : CurrentSession.t) : CurrentSession.t :=
  CurrentSession.mk (CurrentSession.DeviceID c) (CurrentSession.AppID c)
    (CurrentSession.AppName c) (CurrentSession.StartTime c) ts
    (CurrentSession.State c).

(** UPDATE current_sessions SET last_seen_time = ? WHERE device_id = ? *)
Definition update_last_seen (ts : Time) (dev : string) (db : DB) : option DB :=
  Some (mkDB (sessions db) (sessions_seq db)
          (List.map (fun c => if has_device dev c then set_last_seen ts c else c)
             (current_sessions db))).

(** DELETE FROM current_sessions WHERE device_id = ? *)
Definition delete_current (dev : string) (db : DB) : option DB :=
  Some (mkDB (sessions db) (sessions_seq db)
          (List.filter (fun c => negb (has_device dev c)) (current_sessions db))).

(** DELETE FROM current_sessions *)
Definition delete_all_current (db : DB) : option DB :=
  Some (mkDB (sessions db) (sessions_seq db) []).

(** INSERT INTO sessions (device_id, ..., end_reason) VALUES (...) *)
Definition insert_session (dev app name : string) (st en : Time) (dur : Z)
    (reason : string) (db : DB) : option DB :=
  Some (mkDB (sessions db ++
                [Session.mk (sessions_seq db + 1) dev app name st en dur reason])
          (sessions_seq db + 1)
          (current_sessions db)).

(** *** endSessionTx *)
Definition endSessionTx (cur : CurrentSession.t) (end_ : Time) (reason : string)
  : Tx unit :=
  let end_ := if Before end_ (CurrentSession.StartTime cur)
              then CurrentSession.StartTime cur else end_ in
  let dur := Seconds (Sub end_ (CurrentSession.StartTime cur)) in
  let dur := if isNegative dur then Qmake 0 1 else dur in
  exec "insert session"
    (insert_session (CurrentSession.DeviceID cur) (CurrentSession.AppID cur)
       (CurrentSession.AppName cur) (CurrentSession.StartTime cur) end_
       (int64 dur) reason) ;;
  exec "delete current_session" (delete_current (CurrentSession.DeviceID cur)).

(** *** ApplyPoll *)
Definition applyPollTx (p : PollUpdate.t) : Tx unit :=
  let! cur := query "scan current_session"
                (select_current (PollUpdate.DeviceID p)) in
  if String.eqb (PollUpdate.State p) "active" then
    if String.eqb (PollUpdate.AppID p) "" || String.eqb (PollUpdate.AppName p) ""
    then ret tt
    else
      match cur with
      | None =>
          exec "insert current_session"
            (insert_current (PollUpdate.DeviceID p) (PollUpdate.AppID p)
               (PollUpdate.AppName p) (PollUpdate.Timestamp p)
               (PollUpdate.Timestamp p))
      | Some cur =>
          if negb (String.eqb (CurrentSession.AppID cur) (PollUpdate.AppID p))
          then
            endSessionTx cur (PollUpdate.Timestamp p) "app_change" ;;
            exec "insert new current_session"
              (insert_current (PollUpdate.DeviceID p) (PollUpdate.AppID p)
                 (PollUpdate.AppName p) (PollUpdate.Timestamp p)
                 (PollUpdate.Timestamp p))
          else
            exec "update current_session last_seen"
              (update_last_seen (PollUpdate.Timestamp p) (PollUpdate.DeviceID p))
      end
  else if String.eqb (PollUpdate.State p) "idle"
          || String.eqb (PollUpdate.State p) "offline" then
    match cur with
    | None => ret tt
    | Some cur => endSessionTx cur (PollUpdate.Timestamp p) (PollUpdate.State p)
    end
  else ret tt.

Definition ApplyPoll (o : oracle) (db : DB) (p : PollUpdate.t)
  : DB * option error :=
  if String.eqb (PollUpdate.DeviceID p) ""
  then (db, Some "poll update missing device_id"%string)
  else WithTx (applyPollTx p) o db.

(** *** CloseStaleCurrentSessions *)
Definition closeStaleRow (now : Time) (r : CurrentSession.t) : Tx unit :=
  let end_ := CurrentSession.LastSeenTime r in
  let end_ := if After end_ now then now else end_ in
  let end_ := if Before end_ (CurrentSession.StartTime r)
              then CurrentSession.StartTime r else end_ in
  let dur := Seconds (Sub end_ (CurrentSession.StartTime r)) in
  let dur := if isNegative dur then Qmake 0 1 else dur in
  exec "insert session from current_sessions"
    (insert_session (CurrentSession.DeviceID r) (CurrentSession.AppID r)
       (CurrentSession.AppName r) (CurrentSession.StartTime r) end_
       (int64 dur) "agent_restart").

Definition closeStaleTx (now : Time) : Tx unit :=
  let! rowsData := query "query current_sessions" current_sessions in
  forEach rowsData (closeStaleRow now) ;;
  exec "delete current_sessions" delete_all_current.

Definition CloseStaleCurrentSessions (o : oracle) (db : DB) (now : Time)
  : DB * option error :=
  WithTx (closeStaleTx now) o db.

(** *** GetUsageBetween *)

Definition maxTime (a b : Time) : Time := if After a b then a else b.
Definition minTime (a b : Time) : Time := if Before a b then a else b.

(** The key of the aggregation map: deviceID, appID, appName. *)
Definition key : Type := string * string * string.

Definition session_key (s : Session.t) : key :=
  (Session.DeviceID s, Session.AppID s, Session.AppName s).
Definition current_key (c : CurrentSession.t) : key :=
  (CurrentSession.DeviceID c, CurrentSession.AppID c, CurrentSession.AppName c).

(** [deviceID == nil], or the row is of that device. *)
Definition device_ok (deviceID : option string) (dev : string) : bool :=
  match deviceID with
  | None => true
  | Some d => String.eqb dev d
  end.

(** SELECT ... FROM sessions WHERE end_time > ? AND start_time < ?
    [AND device_id = ?] *)
Definition select_sessions_between (start end_ : Time) (deviceID : option string)
    (db : DB) : list Session.t :=
  List.filter (fun s => (start <? Session.EndTime s)
                        && (Session.StartTime s <? end_)
                        && device_ok deviceID (Session.DeviceID s))
    (sessions db).

(** SELECT ... FROM current_sessions [WHERE device_id = ?] *)
Definition select_current_for (deviceID : option string) (db : DB)
  : list CurrentSession.t :=
  List.filter (fun c => device_ok deviceID (CurrentSession.DeviceID c))
    (current_sessions db).

(** The body shared by the two loops: clip [sStart, sEnd) against
    [start, end_) and add the whole seconds to [agg[k]]. *)
Definition addClipped (start end_ : Time) (agg : gmap key Z) (k : key)
    (sStart sEnd : Time) : gmap key Z :=
  let eStart := maxTime start sStart in
  let eEnd := minTime end_ sEnd in
  if After eEnd eStart then
    let secs := int64 (Seconds (Sub eEnd eStart)) in
    let secs := if secs <? 0 then 0 else secs in
    <[k := wrap64 (default 0 (agg !! k) + secs)]> agg
  else agg.

Definition addClosed (start end_ : Time) (agg : gmap key Z) (s : Session.t)
  : gmap key Z :=
  addClipped start end_ agg (session_key s) (Session.StartTime s)
    (Session.EndTime s).

Definition addCurrent (start end_ : Time) (agg : gmap key Z)
    (c : CurrentSession.t) : gmap key Z :=
  let now := end_ in
  let sEnd := now in
  let sEnd := if Before (CurrentSession.LastSeenTime c) sEnd
              then CurrentSession.LastSeenTime c else sEnd in
  addClipped start end_ agg (current_key c) (CurrentSession.StartTime c) sEnd.

Definition entry_of (kv : key * Z) : UsageEntry.t :=
  UsageEntry.mk kv.1.1.1 kv.1.1.2 kv.1.2 kv.2.

(** The aggregation map after both loops. *)
Definition usageMap (start end_ : Time) (closed : list Session.t)
    (open : list CurrentSession.t) : gmap key Z :=
  fold_left (addCurrent start end_) open
    (fold_left (addClosed start end_) closed ∅).

(** The result ranges over the map; Go leaves the order of that iteration
    open, [map_to_list] is one such order. *)
Definition GetUsageBetween (o : oracle) (db : DB) (start end_ : Time)
    (deviceID : option string) : error + list UsageEntry.t :=
  if negb (Before start end_) then inr []
  else
    match
      (let! rows := query "query sessions for usage"
                      (select_sessions_between start end_ deviceID) in
       let! rowsCur := query "query current_sessions for usage"
                         (select_current_for deviceID) in
       ret (entry_of <$> map_to_list (usageMap start end_ rows rowsCur)))
        o (0%nat, db)
    with
    | inl e => inl e
    | inr (out, _) => inr out
    end.

End storage.

(* ===================================================================== *)
(** ** Package strings, as far as the agents use it (ASCII) *)
(* ===================================================================== *)

Module gostrings.

(** [len(s) >= len(prefix) && s[:len(prefix)] == prefix] *)
Definition HasPrefix (s prefix : string) : bool :=
  (String.length prefix <=? String.length s)%nat
  && String.eqb (String.substring 0 (String.length prefix) s) prefix.

(** [len(s) >= len(suffix) && s[len(s)-len(suffix):] == suffix] *)
Definition HasSuffix (s suffix : string) : bool :=
  (String.length suffix <=? String.length s)%nat
  && String.eqb
       (String.substring (String.length s - String.length suffix)
          (String.length suffix) s)
       suffix.

Definition TrimPrefix (s prefix : string) : string :=
  if HasPrefix s prefix
  then String.substring (String.length prefix)
         (String.length s - String.length prefix) s
  else s.

(** Lower case of one character: 'A'..'Z' move to 'a'..'z'. *)
Definition lower (c : ascii) : ascii :=
  let n := nat_of_ascii c in
  if (65 <=? n)%nat && (n <=? 90)%nat then ascii_of_nat (n + 32) else c.

Fixpoint ToLower (s : string) : string :=
  match s with
  | EmptyString => EmptyString
  | String c s' => String (lower c) (ToLower s')
  end.

(** Tab, line feed, vertical tab, form feed, carriage return, space. *)
Definition isSpace (c : ascii) : bool :=
  let n := nat_of_ascii c in
  ((9 <=? n)%nat && (n <=? 13)%nat) || (n =? 32)%nat.

Fixpoint TrimLeftSpace (s : string) : string :=
  match s with
  | EmptyString => EmptyString
  | String c s' => if isSpace c then TrimLeftSpace s' else s
  end.

Definition TrimSpace (s : string) : string :=
  String.rev (TrimLeftSpace (String.rev (TrimLeftSpace s))).

End gostrings.

(* ===================================================================== *)
(** ** Package poller: RokuPoller.Poll *)
(* ===================================================================== *)

Module PollResult.
Record t := mk {
  DeviceID : string;
  AppID : string;
  AppName : string;
  State : string;
  Timestamp : time.Time
}.
End PollResult.

Module poller.

Import gostrings.

Record RokuPoller := mkRokuPoller {
  deviceID : string;
  baseURL : string
}.

(** The fields the decoder fills: [App.ID] and [App.Name]. *)
Record activeAppResponse := mkActiveApp {
  App_ID : string;
  App_Name : string
}.

(** What [io.ReadAll(resp.Body)] gives. *)
Inductive bodyRead :=
| ReadFails
| ReadAll (body : string).

(** What the one GET of a poll meets: the request cannot be built, the
    client's [Do] fails (connection, DNS, TLS, deadline), or a response
    arrives. *)
Inductive exchange :=
| NewRequestFails
| DoFails
| Response (StatusCode : Z) (Body : bodyRead).

Definition StatusOK : Z := 200.

Definition isIdleAppName (name : string) : bool :=
  let l := ToLower (TrimSpace name) in
  String.eqb l "roku" || String.eqb l "home" || String.eqb l "screensaver"
  || String.eqb l "roku home".

Section Poll.

(** [xml.Unmarshal] into an [activeAppResponse]; [None] is its error. *)
Variable xmlUnmarshal : string -> option activeAppResponse.

Definition Poll (p : RokuPoller) (now : time.Time) (net : exchange)
  : PollResult.t * option string :=
  let res := PollResult.mk (deviceID p) "" "" "offline" now in
  match net with
  | NewRequestFails => (res, Some "build request"%string)
  | DoFails => (res, None)
  | Response code body =>
      if negb (code =? StatusOK) then (res, None)
      else
        match body with
        | ReadFails => (res, Some "read active-app response"%string)
        | ReadAll body =>
            match xmlUnmarshal body with
            | None => (res, Some "unmarshal active-app response"%string)
            | Some a =>
                let appID := TrimSpace (App_ID a) in
                let appName := TrimSpace (App_Name a) in
                let state := if String.eqb appName "" || isIdleAppName appName
                             then "idle"%string else "active"%string in
                (PollResult.mk (deviceID p) appID appName state now, None)
            end
        end
  end.

End Poll.

Definition dquote : string := String "034"%char EmptyString.

(** A decoder for the documents of the one shape
    <active-app><app id=ID>NAME</app></active-app> (ID between double
    quotes); it refuses every other body, the empty one included, where
    encoding/xml answers io.EOF.  The examples run [Poll] with it. *)
Definition xmlActiveApp (body : string) : option activeAppResponse :=
  let pre := ("<active-app><app id=" ++ dquote)%string in
  let post := "</app></active-app>"%string in
  if HasPrefix body pre then
    let r := String.substring (String.length pre)
               (String.length body - String.length pre) body in
    match String.index 0 (dquote ++ ">")%string r with
    | Some i =>
        let r2 := String.substring (i + 2) (String.length r - (i + 2)) r in
        match String.index 0 post r2 with
        | Some j =>
            if (j + String.length post =? String.length r2)%nat
            then Some (mkActiveApp (String.substring 0 i r) (String.substring 0 j r2))
            else None
        | None => None
        end
    | None => None
    end
  else None.

End poller.

(* ===================================================================== *)
(** ** Package linux: Categorizer and extractDomain's trimming *)
(* ===================================================================== *)

Module linux.

Import gostrings.

Record Category := mkCategory {
  Domains : list string;
  DomainSuffixes : list string
}.

(** The two inner loops of [Categorize] for one category. *)
Definition matches (domainLower : string) (category : Category) : bool :=
  existsb (fun d => String.eqb (ToLower d) domainLower
                    || HasSuffix domainLower ("." ++ ToLower d))
    (Domains category)
  || existsb (fun suffix => HasSuffix domainLower (ToLower suffix))
       (DomainSuffixes category).

(** The outer loop, over the categories in the order the map yields them. *)
Fixpoint rangeCategories (order : list (string * Category))
    (domainLower : string) : option string :=
  match order with
  | [] => None
  | (categoryName, category) :: rest =>
      if matches domainLower category then Some categoryName
      else rangeCategories rest domainLower
  end.

(** [Categorize]: [order] is the order in which this call's [range] visits
    the entries of [c.categories]. *)
Definition Categorize (order : list (string * Category)) (domain : string)
  : string :=
  if String.eqb domain "" then "uncategorized"%string
  else
    match rangeCategories order (ToLower domain) with
    | Some categoryName => categoryName
    | None => "uncategorized"%string
    end.


(** [extractDomain] after [url.Parse] and [Hostname]. *)
Definition stripWWW (host : string) : string := TrimPrefix host "www.".

End linux.

(* ===================================================================== *)
(** ** Package config: LoadConfig *)
(* ===================================================================== *)

Module DeviceConfig.
Record t := mk {
  ID : string;
  BaseURL : string;
  PollIntervalSeconds : Z;
  Tags : list string
}.
End DeviceConfig.

Module Config.
Record t := mk {
  DatabasePath : string;
  HTTPListen : string;
  DayStartHour : Z;
  Timezone : string;
  Devices : list DeviceConfig.t
}.
End Config.

Module config.

(** A JSON object of the configuration file: each recognised field is
    present with a value of its type, or absent. *)
Record deviceJSON := mkDeviceJSON {
  id : option string;
  base_url : option string;
  poll_interval_seconds : option Z;
  tags : option (list string)
}.

Record configJSON := mkConfigJSON {
  database_path : option string;
  http_listen : option string;
  day_start_hour : option Z;
  timezone : option string;
  devices : option (list deviceJSON)
}.

(** What [os.ReadFile] and the JSON syntax give. *)
Inductive file :=
| Unreadable
| Malformed
| Document (doc : configJSON).

(** A number fits Go's [int] (64 bits). *)
Definition fits_int (z : Z) : bool := (- 2 ^ 63 <=? z) && (z <? 2 ^ 63).

Definition int_field (f : option Z) : option Z :=
  match f with
  | None => Some 0
  | Some z => if fits_int z then Some z else None
  end.

Definition unmarshalDevice (d : deviceJSON) : option DeviceConfig.t :=
  match int_field (poll_interval_seconds d) with
  | None => None
  | Some n => Some (DeviceConfig.mk (default "" (id d)) (default "" (base_url d))
                      n (default [] (tags d)))
  end.

(** [json.Unmarshal(data, &cfg)] on a zero [cfg]: absent fields keep their
    zero value; a number outside [int] is an error. *)
Definition unmarshal (doc : configJSON) : option Config.t :=
  match int_field (day_start_hour doc),
        mapM unmarshalDevice (default [] (devices doc)) with
  | Some h, Some ds =>
      Some (Config.mk (default "" (database_path doc))
              (default "" (http_listen doc)) h
              (default "" (timezone doc)) ds)
  | _, _ => None
  end.

(** The validation loop over [cfg.Devices], from index [i] on. *)
Fixpoint checkDevices (i : nat) (ds : list DeviceConfig.t) : option string :=
  match ds with
  | [] => None
  | d :: rest =>
      if String.eqb (DeviceConfig.ID d) ""
      then Some ("devices[" +:+ pretty i +:+ "].id is required")
      else if String.eqb (DeviceConfig.BaseURL d) ""
      then Some ("devices[" +:+ pretty i +:+ "].base_url is required")
      else if DeviceConfig.PollIntervalSeconds d <=? 0
      then Some ("devices[" +:+ pretty i
                 +:+ "].poll_interval_seconds must be > 0")
      else checkDevices (S i) rest
  end.

Definition LoadConfig (f : file) : string + Config.t :=
  match f with
  | Unreadable => inl "read config"%string
  | Malformed => inl "unmarshal config"%string
  | Document doc =>
      match unmarshal doc with
      | None => inl "unmarshal config"%string
      | Some cfg =>
          (* Defaults *)
          let listen := if String.eqb (Config.HTTPListen cfg) ""
                        then ":8080"%string else Config.HTTPListen cfg in
          let hour := if Config.DayStartHour cfg =? 0
                      then 7 else Config.DayStartHour cfg in
          (* Basic validation *)
          if String.eqb (Config.DatabasePath cfg) ""
          then inl "database_path is required"%string
          else if (List.length (Config.Devices cfg) =? 0)%nat
          then inl "at least one device is required"%string
          else
            match checkDevices 0 (Config.Devices cfg) with
            | Some e => inl e
            | None =>
                inr (Config.mk (Config.DatabasePath cfg) listen hour
                       (Config.Timezone cfg) (Config.Devices cfg))
            end
      end
  end.

End config.

(* ===================================================================== *)
(** ** The specification's side: the transition table, the closing rule,
       the usage formula, the invariants *)
(* ===================================================================== *)

Module spec.

Import time storage.

(** The whole seconds of a duration, clamped to >= 0. *)
Definition whole_seconds (d : Duration) : Z := Z.max 0 (d / Second).

Fixpoint Zsum {A} (f : A -> Z) (l : list A) : Z :=
  match l with
  | [] => 0
  | x :: l' => f x + Zsum f l'
  end.

(** *** Closing rule: end = max(p.Timestamp, cur.StartTime),
    DurationSeconds = the whole seconds of end - StartTime. *)
Definition closed_session (id : Z) (cur : CurrentSession.t) (ts : Time)
    (reason : string) : Session.t :=
  let end_ := Z.max ts (CurrentSession.StartTime cur) in
  Session.mk id (CurrentSession.DeviceID cur) (CurrentSession.AppID cur)
    (CurrentSession.AppName cur) (CurrentSession.StartTime cur) end_
    (whole_seconds (Sub end_ (CurrentSession.StartTime cur))) reason.

(** Close [cur]: its row leaves current_sessions, a Session row is written. *)
Definition close (cur : CurrentSession.t) (ts : Time) (reason : string)
    (db : DB) : DB :=
  mkDB (sessions db ++ [closed_session (sessions_seq db + 1) cur ts reason])
    (sessions_seq db + 1)
    (List.filter (fun c => negb (has_device (CurrentSession.DeviceID cur) c))
       (current_sessions db)).

(** Insert a new CurrentSession (Start = LastSeen = p.Timestamp, active). *)
Definition open (p : PollUpdate.t) (db : DB) : DB :=
  mkDB (sessions db) (sessions_seq db)
    (current_sessions db ++
       [CurrentSession.mk (PollUpdate.DeviceID p) (PollUpdate.AppID p)
          (PollUpdate.AppName p) (PollUpdate.Timestamp p)
          (PollUpdate.Timestamp p) "active"]).

(** Set LastSeenTime = p.Timestamp on the device's row. *)
Definition heartbeat (p : PollUpdate.t) (db : DB) : DB :=
  mkDB (sessions db) (sessions_seq db)
    (List.map (fun c => if has_device (PollUpdate.DeviceID p) c
                        then set_last_seen (PollUpdate.Timestamp p) c else c)
       (current_sessions db)).

(** The transition table of ApplyPoll. *)
Definition transition (db : DB) (p : PollUpdate.t) : DB :=
  let cur := select_current (PollUpdate.DeviceID p) db in
  let ts := PollUpdate.Timestamp p in
  if decide (PollUpdate.State p = "active") then
    if decide (PollUpdate.AppID p = "" ∨ PollUpdate.AppName p = "") then db
    else
      match cur with
      | None => open p db
      | Some c =>
          if decide (CurrentSession.AppID c = PollUpdate.AppID p)
          then heartbeat p db
          else open p (close c ts "app_change" db)
      end
  else if decide (PollUpdate.State p = "idle") then
    match cur with
    | None => db
    | Some c => close c ts "idle" db
    end
  else if decide (PollUpdate.State p = "offline") then
    match cur with
    | None => db
    | Some c => close c ts "offline" db
    end
  else db.

Definition precondition_error : error := "poll update missing device_id".

Definition ApplyPollSpec (db : DB) (p : PollUpdate.t) : DB * option error :=
  if decide (PollUpdate.DeviceID p = "") then (db, Some precondition_error)
  else (transition db p, None).


(** *** Invariants *)

(** At most one current_sessions row per device. *)
Definition at_most_one_open (db : DB) : Prop :=
  NoDup (CurrentSession.DeviceID <$> current_sessions db).

Definition lastSeen (dev : string) (db : DB) : option Time :=
  CurrentSession.LastSeenTime <$> select_current dev db.

(** The stores after each call of a sequence of ApplyPoll calls. *)
Fixpoint commits (db : DB) (calls : list (oracle * PollUpdate.t)) : list DB :=
  match calls with
  | [] => []
  | (o, p) :: rest =>
      let db' := (storage.ApplyPoll o db p).1 in
      db' :: commits db' rest
  end.

(** In-order delivery for one device: every poll is of [dev], and no
    timestamp is earlier than the one before it, starting from [t]. *)
Fixpoint in_order (dev : string) (t : Time)
    (calls : list (oracle * PollUpdate.t)) : Prop :=
  match calls with
  | [] => True
  | (_, p) :: rest =>
      PollUpdate.DeviceID p = dev ∧ t <= PollUpdate.Timestamp p
      ∧ in_order dev (PollUpdate.Timestamp p) rest
  end.

(** The values of a trace never decrease (where there is no open session
    there is no value). *)
Definition never_decreases (trace : list (option Time)) : Prop :=
  ∀ (i j : nat) (a b : Time),
    (i <= j)%nat -> trace !! i = Some (Some a) -> trace !! j = Some (Some b) ->
    a <= b.

(** A Session row as the store writes it. *)
Definition session_wf (s : Session.t) : Prop :=
  Session.DurationSecs s
  = whole_seconds (Sub (Session.EndTime s) (Session.StartTime s)).

(** *** Startup reconciliation *)

Definition stale_session (now : Time) (id : Z) (r : CurrentSession.t)
  : Session.t :=
  let end_ := Z.max (CurrentSession.StartTime r)
                (Z.min (CurrentSession.LastSeenTime r) now) in
  Session.mk id (CurrentSession.DeviceID r) (CurrentSession.AppID r)
    (CurrentSession.AppName r) (CurrentSession.StartTime r) end_
    (whole_seconds (Sub end_ (CurrentSession.StartTime r))) "agent_restart".

Fixpoint stale_sessions (now : Time) (seq : Z) (rows : list CurrentSession.t)
  : list Session.t :=
  match rows with
  | [] => []
  | r :: rest => stale_session now (seq + 1) r :: stale_sessions now (seq + 1) rest
  end.

Definition reconciled (db : DB) (now : Time) : DB :=
  mkDB (sessions db ++ stale_sessions now (sessions_seq db) (current_sessions db))
    (sessions_seq db + Z.of_nat (List.length (current_sessions db)))
    [].

(** *** Usage *)

(** max(0, min(end, sEnd) - max(start, sStart)), in whole seconds. *)
Definition contribution (start end_ sStart sEnd : Time) : Z :=
  Z.max 0 (Sub (Z.min end_ sEnd) (Z.max start sStart) / Second).

Definition closed_contribution (start end_ : Time) (s : Session.t) : Z :=
  contribution start end_ (Session.StartTime s) (Session.EndTime s).

(** An open session's effective end is min(end, LastSeenTime). *)
Definition open_contribution (start end_ : Time) (c : CurrentSession.t) : Z :=
  contribution start end_ (CurrentSession.StartTime c)
    (Z.min end_ (CurrentSession.LastSeenTime c)).

(** The sum for one (DeviceID, AppID, AppName): the rows of that key the
    device filter lets through contribute, the others do not. *)
Definition usage (start end_ : Time) (deviceID : option string) (db : DB)
    (k : key) : Z :=
  Zsum (fun s => if bool_decide (session_key s = k)
                    && device_ok deviceID (Session.DeviceID s)
                 then closed_contribution start end_ s else 0)
    (sessions db)
  + Zsum (fun c => if bool_decide (current_key c = k)
                      && device_ok deviceID (CurrentSession.DeviceID c)
                   then open_contribution start end_ c else 0)
      (current_sessions db).

Definition entry_key (e : UsageEntry.t) : key :=
  (UsageEntry.DeviceID e, UsageEntry.AppID e, UsageEntry.AppName e).

(** The seconds a result credits to [k]. *)
Definition total_for (k : key) (out : list UsageEntry.t) : Z :=
  Zsum (fun e => if bool_decide (entry_key e = k)
                 then UsageEntry.TotalSeconds e else 0) out.



End spec.

(* ===================================================================== *)
(** ** The specification's side: fault mapping, categorisation *)
(* ===================================================================== *)

Module agents.

Import gostrings poller linux.

(** The result of a poll that learnt nothing: State offline, no app. *)
Definition offline (p : RokuPoller) (now : time.Time) : PollResult.t :=
  PollResult.mk (deviceID p) "" "" "offline" now.

(** The reachability faults in the specification's words: the connection
    failed, the status is not 2xx, or the body is empty. *)
Definition reachability_fault (net : exchange) : Prop :=
  match net with
  | NewRequestFails => False
  | DoFails => True
  | Response code body => code < 200 ∨ 299 < code ∨ body = ReadAll ""
  end.

(** The faults the code maps to offline: [Do] failed, or the status is
    not 200. *)
Definition unreachable (net : exchange) : Prop :=
  match net with
  | NewRequestFails => False
  | DoFails => True
  | Response code _ => code ≠ 200
  end.

(** The faults the code returns as errors: the request cannot be built,
    the body of a 200 response cannot be read, or it is not the XML
    expected. *)
Definition surfaced (xmlUnmarshal : string -> option activeAppResponse)
    (net : exchange) : Prop :=
  match net with
  | NewRequestFails => True
  | DoFails => False
  | Response code ReadFails => code = 200
  | Response code (ReadAll body) => code = 200 ∧ xmlUnmarshal body = None
  end.

(** [s] ends with [t]. *)
Definition ends_with (s t : string) : Prop := ∃ pre, s = (pre ++ t)%string.



(** Scenario S6. *)
Definition homework : Category := mkCategory ["khanacademy.org"] [".edu"].
Definition S6 : gmap string Category := {[ "homework"%string := homework ]}.


(** A valid aggregator configuration that asks for the day to start at
    midnight. *)
Definition tv : config.deviceJSON :=
  config.mkDeviceJSON (Some "tv"%string) (Some "http://192.168.1.20:8060"%string)
    (Some 5) None.
Definition with_hour (h : option Z) : config.configJSON :=
  config.mkConfigJSON (Some "screentime.db"%string) None h None (Some [tv]).
Definition midnight : config.configJSON := with_hour (Some 0).

End agents.

(* ===================================================================== *)
(** ** The loops of GetUsageBetween, for the proofs *)
(* ===================================================================== *)

Module aggregation.

Import time storage spec.


(** One turn of a loop over rows with key [kf], start [sf] and end [ef]. *)
Definition step {A} (start end_ : Time) (kf : A -> key) (sf ef : A -> Time)
    (agg : gmap key Z) (x : A) : gmap key Z :=
  addClipped start end_ agg (kf x) (sf x) (ef x).

(** What the row is worth in the window. *)
Definition worth {A} (start end_ : Time) (sf ef : A -> Time) (x : A) : Z :=
  contribution start end_ (sf x) (ef x).

(** [sEnd] of the second loop. *)
Definition effective_end (end_ : Time) (c : CurrentSession.t) : Time :=
  if Before (CurrentSession.LastSeenTime c) end_
  then CurrentSession.LastSeenTime c else end_.

End aggregation.

(* ===================================================================== *)
(** ** Sample data: the scenarios of the specification *)
(* ===================================================================== *)

Module examples.

Import time storage.

(** T0 = 2025-01-01T12:00:00Z. *)
Definition T0 : Time := 1735732800 * Second.
Definition after (secs : Z) : Time := T0 + secs * Second.

Definition active (app name : string) (secs : Z) : PollUpdate.t :=
  PollUpdate.mk "tv" app name "active" (after secs).
Definition idle (secs : Z) : PollUpdate.t :=
  PollUpdate.mk "tv" "" "" "idle" (after secs).
Definition gone (secs : Z) : PollUpdate.t :=
  PollUpdate.mk "tv" "" "" "offline" (after secs).

(** Netflix open on the device tv since T0, last seen at T0+60. *)
Definition netflix : CurrentSession.t :=
  CurrentSession.mk "tv" "NFLX" "Netflix" T0 (after 60) "active".
Definition watching : DB := mkDB [] 0 [netflix].

(** Scenario S4: last seen at T0+300. *)
Definition netflix300 : CurrentSession.t :=
  CurrentSession.mk "tv" "NFLX" "Netflix" T0 (after 300) "active".

(** Scenario S5: two closed sessions A and B. *)
Definition sessionA : Session.t :=
  Session.mk 1 "tv" "A" "a" T0 (after 60) 60 "app_change".
Definition sessionB : Session.t :=
  Session.mk 2 "tv" "B" "b" (after 60) (after 120) 60 "idle".
Definition ledger : DB := mkDB [sessionA; sessionB] 2 [netflix].

End examples.

(* ===================================================================== *)
(** ** Package storage: the read side, and runs of polls *)
(* ===================================================================== *)

From stdpp Require Import sorting.

Local Open Scope Z_scope.

Module queries.

Import time storage.

(** *** GetCurrentSessions *)
Definition GetCurrentSessions (o : oracle) (db : DB)
  : error + list CurrentSession.t :=
  match query "query current_sessions" current_sessions o (0%nat, db) with
  | inl e => inl e
  | inr (out, _) => inr out
  end.








(** The AUTOINCREMENT key: the ids of the table grow with the rows, and none
    is above the counter. *)
Definition ids_ok (db : DB) : Prop :=
  StronglySorted Z.lt (Session.ID <$> sessions db)
  ∧ Forall (fun s => Session.ID s <= sessions_seq db) (sessions db).

(** The rows of the other devices. *)
Definition others (dev : string) (db : DB) : list CurrentSession.t :=
  List.filter (fun c => negb (has_device dev c)) (current_sessions db).

(** An open session is well formed: it was not last seen before it started. *)
Definition current_wf (c : CurrentSession.t) : Prop :=
  CurrentSession.StartTime c <= CurrentSession.LastSeenTime c.

End queries.

(* ===================================================================== *)
(** ** Package strings, more of it; strconv.Atoi *)
(* ===================================================================== *)

Module gostrings2.

Import gostrings.

(** [c] is one of the bytes of [cutset]. *)
Fixpoint inCutset (c : ascii) (cutset : string) : bool :=
  match cutset with
  | EmptyString => false
  | String x rest => Ascii.eqb x c || inCutset c rest
  end.

(** [strings.TrimRight(s, cutset)]: the trailing bytes of [cutset] go. *)
Fixpoint TrimRight (s cutset : string) : string :=
  match s with
  | EmptyString => EmptyString
  | String x s' =>
      let r := TrimRight s' cutset in
      if String.eqb r "" && inCutset x cutset then EmptyString else String x r
  end.

(** [strings.Contains(s, substr)]: [substr] starts somewhere in [s]. *)
Fixpoint Contains (s substr : string) : bool :=
  HasPrefix s substr
  || match s with
     | EmptyString => false
     | String _ s' => Contains s' substr
     end.

(** [strings.Split(s, sep)] for a separator of one byte [c]. *)
Fixpoint SplitByte (s : string) (c : ascii) : list string :=
  match s with
  | EmptyString => [EmptyString]
  | String x s' =>
      if Ascii.eqb x c then EmptyString :: SplitByte s' c
      else match SplitByte s' c with
           | [] => [String x EmptyString]
           | piece :: pieces => String x piece :: pieces
           end
  end.

(** A decimal digit. *)
Definition digit (c : ascii) : option Z :=
  let n := nat_of_ascii c in
  if (48 <=? n)%nat && (n <=? 57)%nat then Some (Z.of_nat n - 48) else None.

Fixpoint digits (acc : Z) (s : string) : option Z :=
  match s with
  | EmptyString => Some acc
  | String c s' =>
      match digit c with
      | None => None
      | Some d => digits (acc * 10 + d) s'
      end
  end.

(** [strconv.Atoi]: an optional sign and one decimal digit at least; a value
    outside int (64 bits) is an error. *)
Definition Atoi (s : string) : option Z :=
  match s with
  | EmptyString => None
  | String c rest =>
      let signed := Ascii.eqb c "-" || Ascii.eqb c "+" in
      let body := if signed then rest else s in
      if String.eqb body "" then None
      else match digits 0 body with
           | None => None
           | Some n =>
               let v := if Ascii.eqb c "-" then - n else n in
               if (- 2 ^ 63 <=? v) && (v <? 2 ^ 63) then Some v else None
           end
  end.

(** [n] slashes. *)
Fixpoint slashes (n : nat) : string :=
  match n with
  | O => EmptyString
  | S n' => String "/" (slashes n')
  end.

End gostrings2.

(* ===================================================================== *)
(** ** Package poller: NewRokuPoller and the poll of Runner.runDevice *)
(* ===================================================================== *)

Module runner.

Import gostrings gostrings2 poller storage.

Definition NewRokuPoller (deviceID baseURL : string) : RokuPoller :=
  mkRokuPoller deviceID (TrimRight baseURL "/").

(** [interval] of runDevice: [time.Duration(d.PollIntervalSeconds) *
    time.Second], an int64 product. *)
Definition interval (d : DeviceConfig.t) : time.Duration :=
  wrap64 (DeviceConfig.PollIntervalSeconds d * time.Second).



End runner.

(* ===================================================================== *)
(** ** Package http: the usage view of handleUsageToday *)
(* ===================================================================== *)

Module appUsage.
Record t := mk {
  AppID : string;
  AppName : string;
  TotalSeconds : Z;
  Hours : Z;
  Minutes : Z
}.
End appUsage.

Module handlers.

Import gostrings2.

(** [dayStartHour]: the configured hour, or the query parameter start_hour
    when it is an integer h with h >= 0 && h < 24. *)
Definition dayStartHour (cfgHour : Z) (start_hour : string) : Z :=
  if String.eqb start_hour "" then cfgHour
  else match Atoi start_hour with
       | Some h => if (0 <=? h) && (h <? 24) then h else cfgHour
       | None => cfgHour
       end.

(** The entry as the response shows it: int64 [/] and [%] truncate. *)
Definition toAppUsage (e : UsageEntry.t) : appUsage.t :=
  let hours := Z.quot (UsageEntry.TotalSeconds e) 3600 in
  let minutes := Z.quot (Z.rem (UsageEntry.TotalSeconds e) 3600) 60 in
  appUsage.mk (UsageEntry.AppID e) (UsageEntry.AppName e)
    (UsageEntry.TotalSeconds e) hours minutes.

(** [deviceMap] after the loop over the entries. *)
Definition deviceMap (entries : list UsageEntry.t) : gmap string (list appUsage.t) :=
  fold_left
    (fun m e => <[UsageEntry.DeviceID e :=
                    default [] (m !! UsageEntry.DeviceID e) ++ [toAppUsage e]]> m)
    entries ∅.

(** [devices]: the map ranged over, in one of the orders Go may take. *)
Definition deviceUsage (entries : list UsageEntry.t)
  : list (string * list appUsage.t) :=
  map_to_list (deviceMap entries).

End handlers.

(* ===================================================================== *)
(** ** Package linux: the detectors of the desktop agent *)
(* ===================================================================== *)

Module WindowInfo.
Record t := mk {
  Title : string;
  Class : string;
  Instance : string
}.
End WindowInfo.

Module Activity.
Record t := mk {
  ID : string;
  Name : string;
  State : string
}.
End Activity.

Module SteamGame.
Record t := mk {
  AppID : string;
  Name : string
}.
End SteamGame.

Module BrowserTab.
Record t := mk {
  URL : string;
  Title : string;
  Domain : string
}.
End BrowserTab.

Module LinuxConfig.
Record t := mk {
  Categories : gmap string linux.Category;
  IdleWindowPatterns : list string;
  IgnoredWindows : list string
}.
End LinuxConfig.

Module window.

Import gostrings gostrings2.

Definition browsers : list string :=
  ["firefox"; "chromium"; "chrome"; "brave"; "brave-browser"; "vivaldi";
   "opera"]%string.

(** The three methods take a [*WindowInfo]; [None] is the nil pointer. *)
Definition IsBrowser (info : option WindowInfo.t) : bool :=
  match info with
  | None => false
  | Some info =>
      let lower := ToLower (WindowInfo.Instance info) in
      existsb (fun b => String.eqb lower b || Contains lower b) browsers
  end.

Definition IsIdle (info : option WindowInfo.t) (patterns : list string) : bool :=
  match info with
  | None => true
  | Some info =>
      let titleLower := ToLower (WindowInfo.Title info) in
      existsb (fun pattern => Contains titleLower (ToLower pattern)) patterns
  end.

Definition IsIgnored (info : option WindowInfo.t) (ignoredWindows : list string)
  : bool :=
  match info with
  | None => false
  | Some info =>
      let instanceLower := ToLower (WindowInfo.Instance info) in
      let classLower := ToLower (WindowInfo.Class info) in
      existsb (fun ignored =>
                 let ignoredLower := ToLower ignored in
                 String.eqb instanceLower ignoredLower
                 || String.eqb classLower ignoredLower)
        ignoredWindows
  end.

End window.

Module steam.

Import gostrings gostrings2.
Local Open Scope Z_scope.

(** The events of one log line name the app as running. *)
Definition isRunning (events : string) : bool :=
  existsb (fun e => String.eqb (TrimSpace e) "App Running")
    (SplitByte events ",").

Section Log.

(** [steamEventRe.FindSubmatch] on one line: the two groups, the app id and
    the events, or [None] where the line does not match. *)
Variable steamEventRe : string -> option (string * string).

(** The body of the scanner loop: [currentAppID] after one more line. *)
Definition scanLine (currentAppID line : string) : string :=
  match steamEventRe line with
  | None => currentAppID
  | Some (appID, events) =>
      if isRunning events then appID
      else if String.eqb currentAppID appID then ""%string
      else currentAppID
  end.

(** [runningGameFromLog] over the lines the scanner yields. *)
Definition runningGameFromLog (lines : list string) : string :=
  fold_left scanLine lines ""%string.

(** [SteamDetector.Detect] on a log that was read; [lookup] is what
    [lookupGameName] answers for an app id, [None] its error. *)
Definition SteamDetect (lookup : string -> option string) (lines : list string)
  : option SteamGame.t :=
  let appID := runningGameFromLog lines in
  if String.eqb appID "" then None
  else
    let name := match lookup appID with
                | Some name => name
                | None => ("Steam Game " ++ appID)%string
                end in
    Some (SteamGame.mk appID name).

(** A line that reports some app as running; a line about [appID]. *)
Definition is_start (line : string) : bool :=
  match steamEventRe line with
  | Some (_, events) => isRunning events
  | None => false
  end.

Definition mentions (appID line : string) : bool :=
  match steamEventRe line with
  | Some (a, _) => String.eqb a appID
  | None => false
  end.

End Log.

(** A matcher for the lines that name one app, of the shape
    [... AppID 440 state changed : Fully Installed,App Running,]; the
    examples run the scanner with it. *)
Definition allDigits (s : string) : bool :=
  negb (String.eqb s "")
  && match digits 0 s with Some _ => true | None => false end.

Definition steamEventLine (line : string) : option (string * string) :=
  match String.index 0 "AppID " line with
  | None => None
  | Some i =>
      let r := String.substring (i + 6) (String.length line - (i + 6)) line in
      match String.index 0 " state changed : " r with
      | None => None
      | Some j =>
          let appID := String.substring 0 j r in
          let rest := String.substring (j + 17) (String.length r - (j + 17)) r in
          if allDigits appID && HasSuffix rest ","
          then Some (appID, String.substring 0 (String.length rest - 1) rest)
          else None
      end
  end.

End steam.

Module firefox.

Import gostrings.

Record entry := mkEntry {
  entry_URL : string;
  entry_Title : string
}.

Record tab := mkTab {
  Index : Z;
  Entries : list entry
}.

Record fxWindow := mkWindow {
  Selected : Z;
  Tabs : list tab
}.

Record firefoxSession := mkSession {
  Windows : list fxWindow;
  SelectedWindow : Z
}.

(** How the selection ends: an index out of range is a panic. *)
Inductive outcome (A : Type) :=
| Panic
| Err (e : string)
| Ok (a : A).

Arguments Panic {A}.
Arguments Err {A} e.
Arguments Ok {A} a.

(** [xs[i]] for an int [i]. *)
Definition index {A : Type} (xs : list A) (i : Z) : option A :=
  if i <? 0 then None else xs !! Z.to_nat i.

(** The 1-indexed choice among [n] items, the first one when the number is
    out of range; [None] when there is nothing to choose. *)
Definition selectedIdx (selected : Z) (n : nat) : option Z :=
  let idx := wrap64 (selected - 1) in
  if (idx <? 0) || (idx >=? Z.of_nat n) then
    if (0 <? Z.of_nat n) then Some 0 else None
  else Some idx.

(** [DetectFirefox] after the session was decoded: the entry it reports. *)
Definition selectedEntry (session : firefoxSession) : outcome entry :=
  match selectedIdx (SelectedWindow session) (List.length (Windows session)) with
  | None => Err "no windows in session"
  | Some selectedWindowIdx =>
      match index (Windows session) selectedWindowIdx with
      | None => Panic
      | Some window =>
          match selectedIdx (Selected window) (List.length (Tabs window)) with
          | None => Err "no tabs in window"
          | Some selectedTabIdx =>
              match index (Tabs window) selectedTabIdx with
              | None => Panic
              | Some tab =>
                  if (List.length (Entries tab) =? 0)%nat
                  then Err "no entries in tab"
                  else
                    match index (Entries tab)
                            (Z.of_nat (List.length (Entries tab)) - 1) with
                    | None => Panic
                    | Some entry => Ok entry
                    end
              end
          end
      end
  end.

(** [extractDomain]; [hostname] is [url.Parse] then [Hostname], [None] the
    error of [url.Parse]. *)
Definition extractDomain (hostname : string -> option string) (rawURL : string)
  : string :=
  match hostname rawURL with
  | None => ""%string
  | Some host => linux.stripWWW host
  end.

Definition DetectFirefox (hostname : string -> option string)
    (session : firefoxSession) : outcome BrowserTab.t :=
  match selectedEntry session with
  | Panic => Panic
  | Err e => Err e
  | Ok entry =>
      Ok (BrowserTab.mk (entry_URL entry) (entry_Title entry)
            (extractDomain hostname (entry_URL entry)))
  end.

(** The numbers and lengths of a decoded session fit Go's int. *)
Definition fits (session : firefoxSession) : bool :=
  config.fits_int (SelectedWindow session)
  && (Z.of_nat (List.length (Windows session)) <? 2 ^ 63)
  && forallb (fun w => config.fits_int (Selected w)
                       && (Z.of_nat (List.length (Tabs w)) <? 2 ^ 63))
       (Windows session).

(** The item number [selected], counted from 1, or the first item when
    there is no such number. *)
Definition chosen {A : Type} (selected : Z) (xs : list A) : option A :=
  if (1 <=? selected) && (selected <=? Z.of_nat (List.length xs))
  then xs !! Z.to_nat (selected - 1)
  else head xs.

(** The last history entry of the chosen tab of the chosen window. *)
Definition selection (session : firefoxSession) : outcome entry :=
  match chosen (SelectedWindow session) (Windows session) with
  | None => Err "no windows in session"
  | Some window =>
      match chosen (Selected window) (Tabs window) with
      | None => Err "no tabs in window"
      | Some tab =>
          match last (Entries tab) with
          | None => Err "no entries in tab"
          | Some entry => Ok entry
          end
      end
  end.

End firefox.

Module detector.

Import gostrings gostrings2 window.

(** What [d.window.Detect()] gives: an error, or a window or none. *)
Inductive windowProbe :=
| WindowFails
| Window (info : option WindowInfo.t).

(** [Detector.Detect]: [game] is what the Steam detector found, [probe] the
    window probe, [tab] what [DetectFirefox] gives when it is asked (an error
    is logged and leaves no tab), [order] the order in which [Categorize]
    ranges over the categories. *)
Definition Detect (cfg : LinuxConfig.t) (order : list (string * linux.Category))
    (game : option SteamGame.t) (probe : windowProbe)
    (tab : option BrowserTab.t) : Activity.t :=
  match game with
  | Some game =>
      Activity.mk ("steam:" ++ SteamGame.AppID game) (SteamGame.Name game) "active"
  | None =>
      match probe with
      | WindowFails => Activity.mk "unknown" "Unknown" "offline"
      | Window None => Activity.mk "idle:no-window" "No Window" "idle"
      | Window (Some windowInfo) =>
          if IsIdle (Some windowInfo) (LinuxConfig.IdleWindowPatterns cfg) then
            Activity.mk "idle:screensaver" (WindowInfo.Title windowInfo) "idle"
          else if IsIgnored (Some windowInfo) (LinuxConfig.IgnoredWindows cfg) then
            Activity.mk "idle:ignored" (WindowInfo.Title windowInfo) "idle"
          else
            let fallback :=
              Activity.mk ("window:" ++ WindowInfo.Instance windowInfo)
                (WindowInfo.Title windowInfo) "active" in
            if IsBrowser (Some windowInfo) then
              match tab with
              | Some tab =>
                  if negb (String.eqb (BrowserTab.Domain tab) "") then
                    Activity.mk
                      ("browser:" ++ linux.Categorize order (BrowserTab.Domain tab))
                      (BrowserTab.Domain tab) "active"
                  else fallback
              | None => fallback
              end
            else fallback
      end
  end.

(** The response of [handleActiveApp] before it is encoded: the id and the
    name of the activity. *)
Definition handleActiveApp (activity : Activity.t) : poller.activeAppResponse :=
  poller.mkActiveApp (Activity.ID activity) (Activity.Name activity).

(** The active-app document, as a stand-in for the encoder in the
    examples. *)
Definition encodeActiveApp (a : poller.activeAppResponse) : string :=
  ("<active-app><app id=" ++ poller.dquote ++ poller.App_ID a ++ poller.dquote
   ++ ">" ++ poller.App_Name a ++ "</app></active-app>")%string.

End detector.

(* ===================================================================== *)
(** ** More sample data *)
(* ===================================================================== *)

Module scenarios.

(** A device polled every 9223372037 seconds: the number of seconds fits an
    int, the number of nanoseconds does not. *)
Definition sleepy : config.deviceJSON :=
  config.mkDeviceJSON (Some "tv"%string) (Some "http://192.168.1.20:8060"%string)
    (Some 9223372037) None.

Definition overflowing : config.configJSON :=
  config.mkConfigJSON (Some "screentime.db"%string) None None None (Some [sleepy]).

(** A report of two devices. *)
Definition report : list UsageEntry.t :=
  [UsageEntry.mk "tv" "12" "Netflix" 5400;
   UsageEntry.mk "laptop" "browser:homework" "khanacademy.org" 3725;
   UsageEntry.mk "tv" "837" "YouTube" 59].

End scenarios.

(* ===================================================================== *)
(** * Part II: theorems *)
(* ===================================================================== *)

(** ** Durations *)

Module Durations.

Import time spec.

Lemma isNegative_Seconds (d : Duration) : isNegative (Seconds d) = (d <? 0).
Proof.
  unfold isNegative, Seconds, Qle_bool; cbn [Qnum Qden].
  destruct (Z.ltb_spec d 0); destruct (Z.leb_spec (0 * 1000000000) (d * 1));
    simpl; lia.
Qed.

Lemma int64_Seconds (d : Duration) : int64 (Seconds d) = Z.quot d Second.
Proof. reflexivity. Qed.

(** The float is clamped, then converted (endSessionTx and
    CloseStaleCurrentSessions). *)
Lemma clamp_then_convert (d : Duration) :
  int64 (if isNegative (Seconds d) then Qmake 0 1 else Seconds d)
  = whole_seconds d.
Proof.
  rewrite isNegative_Seconds. unfold whole_seconds, Second.
  destruct (Z.ltb_spec d 0) as [Hneg|Hpos].
  - change (int64 (Qmake 0 1)) with 0.
    assert (d / 1000000000 < 0) by (apply Z.div_lt_upper_bound; lia). lia.
  - rewrite int64_Seconds. unfold Second. rewrite Z.quot_div_nonneg by lia.
    assert (0 <= d / 1000000000) by (apply Z.div_pos; lia). lia.
Qed.

(** The float is converted, then clamped (GetUsageBetween). *)
Lemma convert_then_clamp (d : Duration) :
  (let secs := int64 (Seconds d) in if secs <? 0 then 0 else secs)
  = whole_seconds d.
Proof.
  cbv zeta. rewrite int64_Seconds. unfold whole_seconds, Second.
  destruct (Z.le_gt_cases 0 d) as [Hpos|Hneg].
  - rewrite Z.quot_div_nonneg by lia.
    assert (0 <= d / 1000000000) by (apply Z.div_pos; lia).
    destruct (Z.ltb_spec (d / 1000000000) 0); lia.
  - assert (d / 1000000000 < 0) by (apply Z.div_lt_upper_bound; lia).
    assert (Z.quot d 1000000000 <= 0).
    { rewrite <- (Z.opp_involutive d), Z.quot_opp_l by lia.
      assert (0 <= Z.quot (- d) 1000000000) by (apply Z.quot_pos; lia). lia. }
    destruct (Z.ltb_spec (Z.quot d 1000000000) 0); lia.
Qed.


Lemma whole_seconds_nonpos (d : Duration) : d <= 0 -> whole_seconds d = 0.
Proof.
  intros Hd. unfold whole_seconds, Second.
  assert (d / 1000000000 <= 0) by (apply Z.div_le_upper_bound; lia). lia.
Qed.



Lemma Sub_bounds (t u : Time) : minDuration <= Sub t u <= maxDuration.
Proof.
  unfold Sub, minDuration, maxDuration.
  destruct (Z.ltb_spec (2 ^ 63 - 1) (t - u)); [lia|].
  destruct (Z.ltb_spec (t - u) (- 2 ^ 63)); lia.
Qed.


Lemma Sub_nonpos (t u : Time) : t <= u -> Sub t u <= 0.
Proof.
  unfold Sub, minDuration, maxDuration. intros H.
  destruct (Z.ltb_spec (2 ^ 63 - 1) (t - u)); [lia|].
  destruct (Z.ltb_spec (t - u) (- 2 ^ 63)); lia.
Qed.


(** No clipped interval is worth 2^34 seconds or more. *)
Lemma whole_seconds_Sub_bound (t u : Time) :
  0 <= whole_seconds (Sub t u) < 2 ^ 34.
Proof.
  pose proof (Sub_bounds t u) as [_ H]. unfold maxDuration in H.
  unfold whole_seconds, Second. split; [lia|].
  assert (Sub t u / 1000000000 < 2 ^ 34) by (apply Z.div_lt_upper_bound; lia).
  lia.
Qed.

End Durations.

(** ** The session store *)

Module SessionStore.

Import time storage spec Durations.

(** *** Rows and statements *)

Lemma find_None_existsb {A} (f : A -> bool) (l : list A) :
  List.find f l = None -> existsb f l = false.
Proof.
  induction l as [|x l IH]; cbn; [done|].
  destruct (f x); [done|]. exact IH.
Qed.

Lemma existsb_filter_negb {A} (f : A -> bool) (l : list A) :
  existsb f (List.filter (fun x => negb (f x)) l) = false.
Proof.
  induction l as [|x l IH]; cbn; [done|].
  destruct (f x) eqn:Hx; cbn; [exact IH|]. by rewrite Hx, IH.
Qed.

Lemma clamped_end (ts start : Time) :
  (if Before ts start then start else ts) = Z.max ts start.
Proof. unfold Before. destruct (Z.ltb_spec ts start); lia. Qed.

(** *** endSessionTx is the closing rule, in two driver calls *)
Lemma endSessionTx_run (o : oracle) (n : nat) (db : DB)
    (cur : CurrentSession.t) (ts : Time) (reason : string) :
  endSessionTx cur ts reason o (n, db)
  = if o n then inl "insert session"%string
    else if o (S n) then inl "delete current_session"%string
    else inr (tt, (S (S n), close cur ts reason db)).
Proof.
  unfold endSessionTx, bind, exec, insert_session, delete_current.
  rewrite clamp_then_convert, clamped_end.
  destruct (o n); [done|]. destruct (o (S n)); done.
Qed.

Lemma insert_current_open (p : PollUpdate.t) (db : DB) :
  select_current (PollUpdate.DeviceID p) db = None ->
  insert_current (PollUpdate.DeviceID p) (PollUpdate.AppID p)
    (PollUpdate.AppName p) (PollUpdate.Timestamp p) (PollUpdate.Timestamp p) db
  = Some (open p db).
Proof.
  unfold select_current, insert_current. intros H.
  by rewrite (find_None_existsb _ _ H).
Qed.

Lemma insert_current_after_close (p : PollUpdate.t) (db : DB)
    (c : CurrentSession.t) (ts : Time) (reason : string) :
  CurrentSession.DeviceID c = PollUpdate.DeviceID p ->
  insert_current (PollUpdate.DeviceID p) (PollUpdate.AppID p)
    (PollUpdate.AppName p) (PollUpdate.Timestamp p) (PollUpdate.Timestamp p)
    (close c ts reason db)
  = Some (open p (close c ts reason db)).
Proof.
  intros Hdev. unfold insert_current, close; cbn [current_sessions].
  by rewrite Hdev, existsb_filter_negb.
Qed.

Lemma select_current_device (dev : string) (db : DB) (c : CurrentSession.t) :
  select_current dev db = Some c -> CurrentSession.DeviceID c = dev.
Proof.
  unfold select_current. intros H. apply find_some in H as [_ H].
  by apply String.eqb_eq in H.
Qed.

(** *** ApplyPoll against the table, under any pattern of driver faults *)
Lemma ApplyPoll_runs (o : oracle) (db : DB) (p : PollUpdate.t) :
  storage.ApplyPoll o db p = spec.ApplyPollSpec db p
  ∨ ((∃ n, o n = true) ∧ ∃ e, storage.ApplyPoll o db p = (db, Some e)).
Proof.
  unfold storage.ApplyPoll, spec.ApplyPollSpec.
  destruct (String.eqb_spec (PollUpdate.DeviceID p) "") as [Hdev|Hdev];
    [ case_decide; [by left | done] | case_decide; [done|] ].
  unfold WithTx, applyPollTx, transition, bind, query, ret.
  destruct (o 0%nat) eqn:H0; [right; eauto|].
  destruct (o 1%nat) eqn:H1; [right; eauto|].
  destruct (String.eqb_spec (PollUpdate.State p) "active") as [Hs|Hs].
  { rewrite decide_True by done.
    destruct (String.eqb_spec (PollUpdate.AppID p) "") as [Ha|Ha]; cbn [orb].
    { rewrite decide_True by tauto.
      destruct (o 2%nat) eqn:H2; [right; eauto | by left]. }
    destruct (String.eqb_spec (PollUpdate.AppName p) "") as [Hn|Hn].
    { rewrite decide_True by tauto.
      destruct (o 2%nat) eqn:H2; [right; eauto | by left]. }
    rewrite decide_False by tauto.
    destruct (select_current (PollUpdate.DeviceID p) db) as [c|] eqn:Hcur.
    - pose proof (select_current_device _ _ _ Hcur) as Hc.
      destruct (String.eqb_spec (CurrentSession.AppID c) (PollUpdate.AppID p))
        as [Hsame|Hdiff]; cbn [negb].
      + rewrite decide_True by done. unfold exec, update_last_seen.
        destruct (o 2%nat) eqn:H2; [right; eauto|].
        destruct (o 3%nat) eqn:H3; [right; eauto | by left].
      + rewrite decide_False by done. rewrite endSessionTx_run.
        destruct (o 2%nat) eqn:H2; [right; eauto|].
        destruct (o 3%nat) eqn:H3; [right; eauto|].
        unfold exec. destruct (o 4%nat) eqn:H4; [right; eauto|].
        rewrite insert_current_after_close by done.
        destruct (o 5%nat) eqn:H5; [right; eauto | by left].
    - unfold exec. destruct (o 2%nat) eqn:H2; [right; eauto|].
      rewrite insert_current_open by done.
      destruct (o 3%nat) eqn:H3; [right; eauto | by left]. }
  rewrite decide_False by done.
  destruct (String.eqb_spec (PollUpdate.State p) "idle") as [Hi|Hi]; cbn [orb].
  { rewrite decide_True by done.
    destruct (select_current (PollUpdate.DeviceID p) db) as [c|] eqn:Hcur.
    - rewrite endSessionTx_run. rewrite Hi.
      destruct (o 2%nat) eqn:H2; [right; eauto|].
      destruct (o 3%nat) eqn:H3; [right; eauto|].
      destruct (o 4%nat) eqn:H4; [right; eauto | by left].
    - destruct (o 2%nat) eqn:H2; [right; eauto | by left]. }
  rewrite decide_False by done.
  destruct (String.eqb_spec (PollUpdate.State p) "offline") as [Hf|Hf].
  { rewrite decide_True by done.
    destruct (select_current (PollUpdate.DeviceID p) db) as [c|] eqn:Hcur.
    - rewrite endSessionTx_run. rewrite Hf.
      destruct (o 2%nat) eqn:H2; [right; eauto|].
      destruct (o 3%nat) eqn:H3; [right; eauto|].
      destruct (o 4%nat) eqn:H4; [right; eauto | by left].
    - destruct (o 2%nat) eqn:H2; [right; eauto | by left]. }
  rewrite decide_False by done.
  destruct (o 2%nat) eqn:H2; [right; eauto | by left].
Qed.

Lemma ApplyPoll_no_faults (db : DB) (p : PollUpdate.t) :
  storage.ApplyPoll no_faults db p = spec.ApplyPollSpec db p.
Proof.
  destruct (ApplyPoll_runs no_faults db p) as [H|[[n Hn] _]]; [done|].
  discriminate Hn.
Qed.


(** *** The closing rule *)





(** *** The heartbeat of a same-app poll *)

Lemma find_map_device (dev : string) (g : CurrentSession.t -> CurrentSession.t)
    (l : list CurrentSession.t) :
  (∀ c, CurrentSession.DeviceID (g c) = CurrentSession.DeviceID c) ->
  List.find (has_device dev) (List.map g l) = g <$> List.find (has_device dev) l.
Proof.
  intros Hg. induction l as [|c l IH]; cbn; [done|].
  unfold has_device at 1 3. rewrite Hg.
  destruct (String.eqb (CurrentSession.DeviceID c) dev); [done|]. exact IH.
Qed.

Lemma select_current_heartbeat (dev : string) (p : PollUpdate.t) (db : DB) :
  select_current dev (heartbeat p db)
  = (fun c => if has_device (PollUpdate.DeviceID p) c
              then set_last_seen (PollUpdate.Timestamp p) c else c)
    <$> select_current dev db.
Proof.
  unfold select_current, heartbeat; cbn [current_sessions].
  apply find_map_device. intros c. by destruct (has_device _ c).
Qed.

(** C10, as amended. For every active poll with a non-empty AppID equal to
    the open session's AppID and a non-empty AppName, ApplyPoll writes
    LastSeenTime := p.Timestamp whatever the stored LastSeenTime is (no
    out-of-order poll is refused), and changes nothing else: the row keeps
    its StartTime, AppID, AppName and State, the rows of other devices and
    the sessions table are as before. *)
Theorem heartbeat_frame (db : DB) (p : PollUpdate.t) (cur : CurrentSession.t) :
  PollUpdate.DeviceID p ≠ "" ->
  PollUpdate.State p = "active" ->
  PollUpdate.AppID p ≠ "" ->
  PollUpdate.AppName p ≠ "" ->
  select_current (PollUpdate.DeviceID p) db = Some cur ->
  CurrentSession.AppID cur = PollUpdate.AppID p ->
  ∃ db',
    storage.ApplyPoll no_faults db p = (db', None)
    ∧ sessions db' = sessions db
    ∧ sessions_seq db' = sessions_seq db
    ∧ select_current (PollUpdate.DeviceID p) db'
      = Some (CurrentSession.mk (CurrentSession.DeviceID cur)
                (CurrentSession.AppID cur) (CurrentSession.AppName cur)
                (CurrentSession.StartTime cur) (PollUpdate.Timestamp p)
                (CurrentSession.State cur))
    ∧ (∀ dev, dev ≠ PollUpdate.DeviceID p ->
              select_current dev db' = select_current dev db)
    ∧ List.length (current_sessions db') = List.length (current_sessions db)
    ∧ (∀ i c, current_sessions db !! i = Some c ->
              current_sessions db' !! i
              = Some (if has_device (PollUpdate.DeviceID p) c
                      then set_last_seen (PollUpdate.Timestamp p) c else c)).
Proof.
  intros Hdev Hs Ha Hn Hcur Hsame. exists (heartbeat p db).
  split.
  { rewrite ApplyPoll_no_faults. unfold spec.ApplyPollSpec, transition.
    rewrite decide_False by done. rewrite Hcur.
    rewrite decide_True by done. rewrite decide_False by tauto.
    by rewrite decide_True by done. }
  split; [done|]. split; [done|]. split.
  { rewrite select_current_heartbeat, Hcur. cbn.
    pose proof (select_current_device _ _ _ Hcur) as Hc.
    unfold has_device. by rewrite (proj2 (String.eqb_eq _ _) Hc). }
  split.
  { intros dev Hne. rewrite select_current_heartbeat.
    destruct (select_current dev db) as [c|] eqn:Hc; [|done]. cbn.
    apply select_current_device in Hc. unfold has_device.
    destruct (String.eqb_spec (CurrentSession.DeviceID c) (PollUpdate.DeviceID p));
      [congruence | done]. }
  split.
  { unfold heartbeat; cbn [current_sessions]. apply length_map. }
  intros i c Hi. unfold heartbeat; cbn [current_sessions].
  change (List.map ?f ?l) with (f <$> l). by rewrite list_lookup_fmap, Hi.
Qed.

Lemma heartbeat_frame_witness :
  ∃ db',
    storage.ApplyPoll no_faults examples.watching
      (examples.active "NFLX" "Netflix" 30) = (db', None)
    ∧ sessions db' = sessions examples.watching
    ∧ select_current "tv" db'
      = Some (CurrentSession.mk "tv" "NFLX" "Netflix" examples.T0
                (examples.after 30) "active").
Proof.
  destruct (heartbeat_frame examples.watching
              (examples.active "NFLX" "Netflix" 30) examples.netflix)
    as (db' & H1 & H2 & _ & H4 & _);
    [discriminate | reflexivity | discriminate | discriminate
    | reflexivity | reflexivity |].
  exists db'. split; [exact H1|]. split; [exact H2 | exact H4].
Defined.

(** C10 as stated fails: an active poll whose non-empty AppID is the open
    session's, but whose AppName is empty, writes nothing; LastSeenTime
    stays at T0+60 although the poll is stamped T0+120. *)
Lemma heartbeat_needs_AppName :
  ¬ (∀ (db : DB) (p : PollUpdate.t) (cur : CurrentSession.t),
       PollUpdate.DeviceID p ≠ "" ->
       PollUpdate.State p = "active" ->
       PollUpdate.AppID p ≠ "" ->
       select_current (PollUpdate.DeviceID p) db = Some cur ->
       CurrentSession.AppID cur = PollUpdate.AppID p ->
       lastSeen (PollUpdate.DeviceID p) (storage.ApplyPoll no_faults db p).1
       = Some (PollUpdate.Timestamp p)).
Proof.
  intros H.
  specialize (H examples.watching (examples.active "NFLX" "" 120)
                examples.netflix).
  assert (lastSeen "tv"
            (storage.ApplyPoll no_faults examples.watching
               (examples.active "NFLX" "" 120)).1
          = Some (examples.after 60)) as Hrun by reflexivity.
  cbn [PollUpdate.DeviceID examples.active] in H.
  rewrite Hrun in H.
  assert (Some (examples.after 60) = Some (examples.after 120)) as Heq.
  { apply H; [discriminate | reflexivity | discriminate | reflexivity
             | reflexivity]. }
  discriminate Heq.
Qed.

(** *** At most one open session per device *)

Lemma devices_filter (f : CurrentSession.t -> bool) (l : list CurrentSession.t) :
  NoDup (CurrentSession.DeviceID <$> l) ->
  NoDup (CurrentSession.DeviceID <$> List.filter f l).
Proof.
  induction l as [|c l IH]; cbn; [done|].
  intros Hnd. apply NoDup_cons in Hnd as [Hc Hl].
  destruct (f c); cbn; [|by apply IH].
  apply NoDup_cons. split; [|by apply IH].
  intros Hin. apply Hc. apply list_elem_of_fmap in Hin as (c' & -> & Hin).
  apply list_elem_of_fmap. exists c'. split; [done|].
  apply list_elem_of_In, filter_In in Hin as [Hin _]. by apply list_elem_of_In.
Qed.

Lemma devices_absent (dev : string) (l : list CurrentSession.t) :
  existsb (has_device dev) l = false -> dev ∉ CurrentSession.DeviceID <$> l.
Proof.
  induction l as [|c l IH]; cbn; [intros _; apply not_elem_of_nil|].
  intros H. apply orb_false_iff in H as [Hc Hl].
  apply not_elem_of_cons. split; [|by apply IH].
  unfold has_device in Hc. apply String.eqb_neq in Hc. congruence.
Qed.

Lemma devices_insert (dev app name state : string) (st ls : Time)
    (l : list CurrentSession.t) :
  existsb (has_device dev) l = false ->
  NoDup (CurrentSession.DeviceID <$> l) ->
  NoDup (CurrentSession.DeviceID
           <$> l ++ [CurrentSession.mk dev app name st ls state]).
Proof.
  intros Habs Hnd. rewrite fmap_app. apply NoDup_app. split; [done|].
  split; [|apply NoDup_singleton].
  intros x Hx Hx'. cbn in Hx'. apply list_elem_of_singleton in Hx'. subst x.
  by apply (devices_absent dev l).
Qed.

Lemma devices_heartbeat (p : PollUpdate.t) (db : DB) :
  CurrentSession.DeviceID <$> current_sessions (heartbeat p db)
  = CurrentSession.DeviceID <$> current_sessions db.
Proof.
  unfold heartbeat; cbn [current_sessions].
  induction (current_sessions db) as [|c l IH]; cbn; [done|].
  f_equal; [|exact IH]. by destruct (has_device _ c).
Qed.

Lemma transition_at_most_one (db : DB) (p : PollUpdate.t) :
  at_most_one_open db -> at_most_one_open (transition db p).
Proof.
  unfold at_most_one_open, transition. intros Hnd.
  assert (∀ c reason,
            NoDup (CurrentSession.DeviceID
                     <$> current_sessions
                           (close c (PollUpdate.Timestamp p) reason db)))
    as Hclose.
  { intros c reason. unfold close; cbn [current_sessions].
    by apply devices_filter. }
  repeat case_decide; try done;
    destruct (select_current (PollUpdate.DeviceID p) db) as [c|] eqn:Hcur;
    try done; try apply Hclose.
  - case_decide.
    + by rewrite devices_heartbeat.
    + unfold open; cbn [current_sessions sessions sessions_seq].
      apply devices_insert; [|apply Hclose].
      unfold close; cbn [current_sessions].
      rewrite (select_current_device _ _ _ Hcur). apply existsb_filter_negb.
  - unfold open; cbn [current_sessions]. apply devices_insert; [|done].
    by apply find_None_existsb.
Qed.

Lemma ApplyPoll_at_most_one (o : oracle) (db : DB) (p : PollUpdate.t) :
  at_most_one_open db -> at_most_one_open (storage.ApplyPoll o db p).1.
Proof.
  intros Hnd. destruct (ApplyPoll_runs o db p) as [H|[_ [e H]]]; rewrite H.
  - unfold spec.ApplyPollSpec. case_decide; [done|].
    by apply transition_at_most_one.
  - done.
Qed.

(** *** LastSeenTime under in-order delivery *)

Lemma find_app_new (dev app name state : string) (st ls : Time)
    (l : list CurrentSession.t) :
  existsb (has_device dev) l = false ->
  List.find (has_device dev) (l ++ [CurrentSession.mk dev app name st ls state])
  = Some (CurrentSession.mk dev app name st ls state).
Proof.
  induction l as [|c l IH]; cbn.
  - intros _. unfold has_device; cbn. by rewrite String.eqb_refl.
  - intros H. apply orb_false_iff in H as [Hc Hl]. rewrite Hc. by apply IH.
Qed.

Lemma find_filter_negb {A} (f : A -> bool) (l : list A) :
  List.find f (List.filter (fun x => negb (f x)) l) = None.
Proof.
  induction l as [|x l IH]; cbn; [done|].
  destruct (f x) eqn:Hx; cbn; [exact IH|]. by rewrite Hx.
Qed.

(** One step: what the device's LastSeenTime may become. *)
Lemma transition_lastSeen (db : DB) (p : PollUpdate.t) (b : Time) :
  lastSeen (PollUpdate.DeviceID p) (transition db p) = Some b ->
  b = PollUpdate.Timestamp p ∨ lastSeen (PollUpdate.DeviceID p) db = Some b.
Proof.
  unfold transition.
  destruct (select_current (PollUpdate.DeviceID p) db) as [c|] eqn:Hcur.
  - pose proof (select_current_device _ _ _ Hcur) as Hc.
    assert (∀ reason,
              lastSeen (PollUpdate.DeviceID p)
                (close c (PollUpdate.Timestamp p) reason db) = None)
      as Hclosed.
    { intros reason. unfold lastSeen, select_current, close;
        cbn [current_sessions]. by rewrite Hc, find_filter_negb. }
    repeat case_decide; try (by right); try (by rewrite Hclosed).
    + unfold lastSeen. rewrite select_current_heartbeat, Hcur. cbn.
      unfold has_device. rewrite (proj2 (String.eqb_eq _ _) Hc). cbn.
      intros [= <-]. by left.
    + unfold lastSeen, select_current, open; cbn [current_sessions].
      rewrite find_app_new.
      * cbn. intros [= <-]. by left.
      * unfold close; cbn [current_sessions]. rewrite Hc.
        apply existsb_filter_negb.
  - repeat case_decide; try (by right).
    unfold lastSeen, select_current, open; cbn [current_sessions].
    rewrite find_app_new by (by apply find_None_existsb).
    cbn. intros [= <-]. by left.
Qed.

Lemma ApplyPoll_lastSeen (o : oracle) (db : DB) (p : PollUpdate.t) (b : Time) :
  lastSeen (PollUpdate.DeviceID p) (storage.ApplyPoll o db p).1 = Some b ->
  b = PollUpdate.Timestamp p ∨ lastSeen (PollUpdate.DeviceID p) db = Some b.
Proof.
  destruct (ApplyPoll_runs o db p) as [H|[_ [e H]]]; rewrite H.
  - unfold spec.ApplyPollSpec. case_decide; [by right|]. apply transition_lastSeen.
  - by right.
Qed.

(** Every later LastSeenTime is at least the one in [db], and at least [t]
    when [db] has none. *)
Lemma commits_above (dev : string) (calls : list (oracle * PollUpdate.t)) :
  ∀ (db : DB) (t : Time),
    in_order dev t calls ->
    (∀ a, lastSeen dev db = Some a -> a <= t) ->
    ∀ d b, d ∈ commits db calls -> lastSeen dev d = Some b ->
           (∀ a, lastSeen dev db = Some a -> a <= b)
           ∧ (lastSeen dev db = None -> t <= b).
Proof.
  induction calls as [|[o p] rest IH]; intros db t Hord Hle d b Hd Hb.
  { by apply elem_of_nil in Hd. }
  destruct Hord as (Hdev & Ht & Hrest). cbn in Hd.
  set (db' := (storage.ApplyPoll o db p).1) in *.
  assert (∀ a', lastSeen dev db' = Some a' ->
                a' <= PollUpdate.Timestamp p
                ∧ (∀ a, lastSeen dev db = Some a -> a <= a')
                ∧ (lastSeen dev db = None -> t <= a')) as Hstep.
  { intros a' Ha'. subst dev.
    destruct (ApplyPoll_lastSeen o db p a' Ha') as [->|Hold].
    - split; [lia|]. split; [|done]. intros a Ha. specialize (Hle a Ha). lia.
    - split; [specialize (Hle a' Hold); lia|]. split.
      + intros a Ha. rewrite Hold in Ha. injection Ha as ->. lia.
      + intros Hnone. by rewrite Hnone in Hold. }
  apply elem_of_cons in Hd as [->|Hd].
  { destruct (Hstep b Hb) as (_ & H1 & H2). by split. }
  specialize (IH db' (PollUpdate.Timestamp p) Hrest
                (fun a' Ha' => proj1 (Hstep a' Ha')) d b Hd Hb)
    as [IH1 IH2].
  destruct (lastSeen dev db') as [a'|] eqn:Hdb'.
  - destruct (Hstep a' eq_refl) as (_ & H1 & H2). specialize (IH1 a' eq_refl).
    split.
    + intros a Ha. specialize (H1 a Ha). lia.
    + intros Hnone. specialize (H2 Hnone). lia.
  - specialize (IH2 eq_refl). split.
    + intros a Ha. specialize (Hle a Ha). lia.
    + intros _. lia.
Qed.

Lemma commits_never_decrease (dev : string) (calls : list (oracle * PollUpdate.t)) :
  ∀ (db : DB) (t : Time),
    in_order dev t calls ->
    (∀ a, lastSeen dev db = Some a -> a <= t) ->
    never_decreases (lastSeen dev <$> db :: commits db calls).
Proof.
  induction calls as [|[o p] rest IH]; intros db t Hord Hle i j a b Hij Hi Hj.
  { destruct i as [|i]; [|by destruct i].
    destruct j as [|j]; [|by destruct j].
    cbn in Hi, Hj. injection Hi as Hi. injection Hj as Hj.
    rewrite Hi in Hj. injection Hj as ->. lia. }
  destruct i as [|i].
  - cbn in Hi. injection Hi as Hi.
    destruct j as [|j].
    { cbn in Hj. injection Hj as Hj. rewrite Hi in Hj. injection Hj as ->. lia. }
    change ((lastSeen dev <$> commits db ((o, p) :: rest)) !! j = Some (Some b))
      in Hj.
    rewrite list_lookup_fmap in Hj.
    destruct (commits db ((o, p) :: rest) !! j) as [d|] eqn:Hd; [|done].
    cbn in Hj. injection Hj as Hj.
    apply list_elem_of_lookup_2 in Hd.
    destruct (commits_above dev ((o, p) :: rest) db t Hord Hle d b Hd Hj)
      as [H1 _].
    by apply H1.
  - destruct j as [|j]; [lia|].
    destruct Hord as (Hdev & Ht & Hrest).
    set (db' := (storage.ApplyPoll o db p).1).
    apply (IH db' (PollUpdate.Timestamp p) Hrest) with (i := i) (j := j);
      [|lia|exact Hi|exact Hj].
    intros a' Ha'. subst dev db'.
    destruct (ApplyPoll_lastSeen o db p a' Ha') as [->|Hold]; [lia|].
    specialize (Hle a' Hold). lia.
Qed.

(** C3. From a store with at most one current_sessions row per device,
    every ApplyPoll call (whatever driver calls fail) leaves at most one
    row per device; and along every sequence of ApplyPoll calls for one
    device delivered in order (no timestamp earlier than the one before
    it, nor than the LastSeenTime already stored), the open session's
    LastSeenTime never decreases from one commit to a later one. *)
Theorem ApplyPoll_invariants :
  (∀ (o : oracle) (db : DB) (p : PollUpdate.t),
     at_most_one_open db -> at_most_one_open (storage.ApplyPoll o db p).1)
  ∧ (∀ (dev : string) (db : DB) (t : Time)
       (calls : list (oracle * PollUpdate.t)),
       (∀ a, lastSeen dev db = Some a -> a <= t) ->
       in_order dev t calls ->
       never_decreases (lastSeen dev <$> db :: commits db calls)).
Proof.
  split.
  - apply ApplyPoll_at_most_one.
  - intros dev db t calls Hle Hord. by apply (commits_never_decrease dev calls db t).
Qed.

Lemma ApplyPoll_invariants_witness :
  at_most_one_open
    (storage.ApplyPoll no_faults examples.watching
       (examples.active "YT" "YouTube" 90)).1
  ∧ never_decreases
      (lastSeen "tv"
         <$> emptyDB
             :: commits emptyDB
                  [(no_faults, examples.active "NFLX" "Netflix" 0);
                   (no_faults, examples.active "NFLX" "Netflix" 60);
                   (no_faults, examples.active "YT" "YouTube" 60);
                   (no_faults, examples.idle 120)]).
Proof.
  split.
  - apply (proj1 ApplyPoll_invariants). apply NoDup_singleton.
  - apply (proj2 ApplyPoll_invariants) with (t := examples.T0).
    + intros a Ha. discriminate Ha.
    + repeat split; vm_compute; discriminate.
Defined.

(** *** Startup reconciliation *)

Lemma stale_end (now : Time) (r : CurrentSession.t) :
  (let end_ := CurrentSession.LastSeenTime r in
   let end_ := if After end_ now then now else end_ in
   if Before end_ (CurrentSession.StartTime r)
   then CurrentSession.StartTime r else end_)
  = Z.max (CurrentSession.StartTime r)
      (Z.min (CurrentSession.LastSeenTime r) now).
Proof.
  cbv zeta. unfold After, Before.
  destruct (Z.ltb_spec now (CurrentSession.LastSeenTime r));
    match goal with |- context [?x <? ?y] => destruct (Z.ltb_spec x y) end; lia.
Qed.

Lemma closeStaleRow_run (o : oracle) (now : Time) (r : CurrentSession.t)
    (n : nat) (db : DB) :
  closeStaleRow now r o (n, db)
  = if o n then inl "insert session from current_sessions"%string
    else inr (tt, (S n,
                   mkDB (sessions db ++ [stale_session now (sessions_seq db + 1) r])
                     (sessions_seq db + 1) (current_sessions db))).
Proof.
  unfold closeStaleRow, exec, insert_session.
  rewrite clamp_then_convert.
  pose proof (stale_end now r) as Hend. cbv zeta in Hend. rewrite Hend.
  destruct (o n); done.
Qed.

(** The loop over the rows: it stops at the first failing insert. *)
Lemma forEach_closeStale (o : oracle) (now : Time) (rows : list CurrentSession.t) :
  ∀ (n : nat) (ss : list Session.t) (seq : Z) (cs : list CurrentSession.t),
    forEach rows (closeStaleRow now) o (n, mkDB ss seq cs)
    = inr (tt, ((n + List.length rows)%nat,
                mkDB (ss ++ stale_sessions now seq rows)
                  (seq + Z.of_nat (List.length rows)) cs))
    ∨ ((∃ k, o k = true)
       ∧ ∃ e, forEach rows (closeStaleRow now) o (n, mkDB ss seq cs) = inl e).
Proof.
  induction rows as [|r rows IH]; intros n ss seq cs.
  - left. cbn. unfold ret. rewrite app_nil_r, Z.add_0_r, Nat.add_0_r. done.
  - assert (∀ st, forEach (r :: rows) (closeStaleRow now) o st
                  = match closeStaleRow now r o st with
                    | inl e => inl e
                    | inr (_, st') => forEach rows (closeStaleRow now) o st'
                    end) as -> by done.
    rewrite closeStaleRow_run.
    destruct (o n) eqn:Hn; [right; eauto|].
    cbn [sessions sessions_seq current_sessions].
    destruct (IH (S n) (ss ++ [stale_session now (seq + 1) r]) (seq + 1) cs)
      as [H|H]; [left|right; exact H].
    rewrite H. cbn [stale_sessions List.length].
    rewrite <- app_assoc, Nat2Z.inj_succ, Nat.add_succ_r. cbn [app plus].
    replace (seq + 1 + Z.of_nat (List.length rows))
      with (seq + Z.succ (Z.of_nat (List.length rows))) by lia.
    done.
Qed.

Lemma CloseStale_runs (o : oracle) (db : DB) (now : Time) :
  CloseStaleCurrentSessions o db now = (reconciled db now, None)
  ∨ ((∃ k, o k = true)
     ∧ ∃ e, CloseStaleCurrentSessions o db now = (db, Some e)).
Proof.
  assert (closeStaleTx now o (1%nat, db)
          = if o 1%nat then inl "query current_sessions"%string
            else match forEach (current_sessions db) (closeStaleRow now) o
                         (2%nat, db) with
                 | inl e => inl e
                 | inr (_, st) =>
                     exec "delete current_sessions" delete_all_current o st
                 end) as Htx.
  { unfold closeStaleTx, bind, query. by destruct (o 1%nat). }
  unfold CloseStaleCurrentSessions, WithTx. rewrite Htx. clear Htx.
  destruct (o 0%nat) eqn:H0; [right; eauto|].
  destruct (o 1%nat) eqn:H1; [right; eauto|].
  unfold reconciled. destruct db as [ss seq cs]. cbn [current_sessions].
  destruct (forEach_closeStale o now cs 2 ss seq cs) as [H|[Hk [e H]]];
    rewrite H; [|right; eauto].
  unfold exec, delete_all_current; cbn [sessions sessions_seq].
  destruct (o (2 + List.length cs)%nat) eqn:Hd; [right; eauto|].
  destruct (o (S (2 + List.length cs))) eqn:Hc; [right; eauto|].
  by left.
Qed.




(** Scenario S4, and a LastSeenTime past now. *)
Example reconcile_S4 :
  CloseStaleCurrentSessions no_faults (mkDB [] 0 [examples.netflix300])
    (examples.after 1000)
  = (mkDB [Session.mk 1 "tv" "NFLX" "Netflix" examples.T0 (examples.after 300)
             300 "agent_restart"] 1 [],
     None)
  ∧ (CloseStaleCurrentSessions no_faults (mkDB [] 0 [examples.netflix300])
       (examples.after 200)).1
    = mkDB [Session.mk 1 "tv" "NFLX" "Netflix" examples.T0 (examples.after 200)
              200 "agent_restart"] 1 [].
Proof. split; reflexivity. Qed.

(** Scenarios S1, S2 and S3: the sessions table in the end; no session is
    left open. *)
Example scenarios_S1_S2_S3 :
  last (commits emptyDB
          [(no_faults, examples.active "NFLX" "Netflix" 0);
           (no_faults, examples.active "NFLX" "Netflix" 60);
           (no_faults, examples.idle 120)])
  = Some (mkDB [Session.mk 1 "tv" "NFLX" "Netflix" examples.T0
                  (examples.after 120) 120 "idle"] 1 [])
  ∧ last (commits emptyDB
            [(no_faults, examples.active "NFLX" "Netflix" 0);
             (no_faults, examples.active "YT" "YouTube" 30);
             (no_faults, examples.idle 90)])
    = Some (mkDB [Session.mk 1 "tv" "NFLX" "Netflix" examples.T0
                    (examples.after 30) 30 "app_change";
                  Session.mk 2 "tv" "YT" "YouTube" (examples.after 30)
                    (examples.after 90) 60 "idle"] 2 [])
  ∧ last (commits emptyDB
            [(no_faults, examples.gone 0);
             (no_faults, examples.gone 60);
             (no_faults, examples.active "NFLX" "Netflix" 120);
             (no_faults, examples.idle 180)])
    = Some (mkDB [Session.mk 1 "tv" "NFLX" "Netflix" (examples.after 120)
                    (examples.after 180) 60 "idle"] 1 []).
Proof. repeat split; reflexivity. Qed.

(** A driver call that fails in the middle of an app change (the insert of
    the new row, call 4) leaves the store as it was. *)
Example rollback_on_fault :
  storage.ApplyPoll (fun n => Nat.eqb n 4) examples.watching
    (examples.active "YT" "YouTube" 90)
  = (examples.watching, Some "insert new current_session"%string).
Proof. reflexivity. Qed.

End SessionStore.

(** ** Usage between two instants *)

Module Usage.

Import time storage spec aggregation Durations.

(** *** int64 *)

Lemma wrap64_id (z : Z) : - 2 ^ 63 <= z < 2 ^ 63 -> wrap64 z = z.
Proof. intros H. unfold wrap64. rewrite Z.mod_small; lia. Qed.

Lemma wrap64_add_l (a b : Z) : wrap64 (wrap64 a + b) = wrap64 (a + b).
Proof.
  unfold wrap64. f_equal.
  replace ((a + 2 ^ 63) mod 2 ^ 64 - 2 ^ 63 + b + 2 ^ 63)
    with ((a + 2 ^ 63) mod 2 ^ 64 + b) by lia.
  replace (a + b + 2 ^ 63) with (a + 2 ^ 63 + b) by lia.
  by rewrite Zplus_mod_idemp_l.
Qed.

(** *** Sums *)

Lemma Zsum_perm {A} (f : A -> Z) (l l' : list A) :
  l ≡ₚ l' -> Zsum f l = Zsum f l'.
Proof. induction 1; cbn; lia. Qed.

Lemma Zsum_app {A} (f : A -> Z) (l l' : list A) :
  Zsum f (l ++ l') = Zsum f l + Zsum f l'.
Proof. induction l as [|x l IH]; cbn; lia. Qed.

Lemma Zsum_fmap {A B} (g : A -> B) (f : B -> Z) (l : list A) :
  Zsum f (g <$> l) = Zsum (fun x => f (g x)) l.
Proof. induction l as [|x l IH]; cbn; [done|]. by rewrite IH. Qed.

Lemma Zsum_ext {A} (f g : A -> Z) (l : list A) :
  (∀ x, x ∈ l -> f x = g x) -> Zsum f l = Zsum g l.
Proof.
  induction l as [|x l IH]; cbn; [done|]. intros H.
  rewrite (H x) by apply list_elem_of_here. rewrite IH; [done|].
  intros y Hy. apply H. by apply list_elem_of_further.
Qed.

Lemma Zsum_filter {A} (q : A -> bool) (f : A -> Z) (l : list A) :
  Zsum f (List.filter q l) = Zsum (fun x => if q x then f x else 0) l.
Proof.
  induction l as [|x l IH]; cbn; [done|]. destruct (q x); cbn; lia.
Qed.

Lemma Zsum_plus {A} (f g : A -> Z) (l : list A) :
  Zsum (fun x => f x + g x) l = Zsum f l + Zsum g l.
Proof. induction l as [|x l IH]; cbn; lia. Qed.

Lemma Zsum_bounds {A} (f : A -> Z) (B : Z) (l : list A) :
  (∀ x, 0 <= f x < B) -> 0 <= Zsum f l <= Z.of_nat (List.length l) * B.
Proof.
  intros H. induction l as [|x l IH]; cbn [Zsum List.length]; [lia|].
  specialize (H x). rewrite Nat2Z.inj_succ. lia.
Qed.

Lemma Zsum_le {A} (f g : A -> Z) (l : list A) :
  (∀ x, f x <= g x) -> Zsum f l <= Zsum g l.
Proof. intros H. induction l as [|x l IH]; cbn; [lia|]. specialize (H x). lia. Qed.

(** *** Clipping *)

Lemma maxTime_max (a b : Time) : maxTime a b = Z.max a b.
Proof. unfold maxTime, After. destruct (Z.ltb_spec b a); lia. Qed.

Lemma minTime_min (a b : Time) : minTime a b = Z.min a b.
Proof. unfold minTime, Before. destruct (Z.ltb_spec a b); lia. Qed.

Lemma contribution_bounds (start end_ sStart sEnd : Time) :
  0 <= contribution start end_ sStart sEnd < 2 ^ 34.
Proof. apply whole_seconds_Sub_bound. Qed.


Lemma contribution_disjoint (start end_ sStart sEnd : Time) :
  Z.min end_ sEnd <= Z.max start sStart ->
  contribution start end_ sStart sEnd = 0.
Proof. intros H. apply whole_seconds_nonpos. by apply Sub_nonpos. Qed.

(** The loop body: the clipped seconds go to [agg[k]]; where the clipped
    interval is empty nothing is touched, and nothing was to be added. *)
Lemma addClipped_eq (start end_ : Time) (agg : gmap key Z) (k : key)
    (sStart sEnd : Time) :
  addClipped start end_ agg k sStart sEnd
  = (if Z.max start sStart <? Z.min end_ sEnd
     then <[k := wrap64 (default 0 (agg !! k)
                         + contribution start end_ sStart sEnd)]> agg
     else agg)
  ∧ ((Z.max start sStart <? Z.min end_ sEnd) = false ->
     contribution start end_ sStart sEnd = 0).
Proof.
  unfold addClipped. rewrite maxTime_max, minTime_min. unfold After.
  split.
  - destruct (Z.max start sStart <? Z.min end_ sEnd); [|done].
    pose proof (convert_then_clamp (Sub (Z.min end_ sEnd) (Z.max start sStart)))
      as Hc. cbv zeta in Hc. by rewrite Hc.
  - intros H. apply Z.ltb_ge in H. by apply contribution_disjoint.
Qed.

(** *** The aggregation map *)






Section Loop.

Context {A : Type} (start end_ : Time).
Context (kf : A -> key) (sf ef : A -> Time).

Lemma step_lookup (agg : gmap key Z) (S : key -> Z) (x : A) :
  (∀ k, default 0 (agg !! k) = wrap64 (S k)) ->
  ∀ k, default 0 (step start end_ kf sf ef agg x !! k)
       = wrap64 (S k + (if bool_decide (kf x = k) then worth start end_ sf ef x else 0)).
Proof.
  intros Hagg k. unfold step, worth.
  destruct (addClipped_eq start end_ agg (kf x) (sf x) (ef x)) as [-> Hzero].
  destruct (Z.max start (sf x) <? Z.min end_ (ef x)) eqn:Hlt.
  - case_bool_decide as Hk.
    + subst k. rewrite lookup_insert_eq. cbn [default].
      by rewrite Hagg, wrap64_add_l.
    + rewrite lookup_insert_ne by done. by rewrite Z.add_0_r.
  - rewrite (Hzero eq_refl). case_bool_decide; by rewrite Z.add_0_r.
Qed.

(** Per key: the map holds the int64 sum of what the rows are worth. *)
Lemma fold_lookup (rows : list A) :
  ∀ (agg : gmap key Z) (S : key -> Z),
    (∀ k, default 0 (agg !! k) = wrap64 (S k)) ->
    ∀ k, default 0 (fold_left (step start end_ kf sf ef) rows agg !! k)
         = wrap64 (S k + Zsum (fun x => if bool_decide (kf x = k)
                                        then worth start end_ sf ef x else 0) rows).
Proof.
  induction rows as [|x rows IH]; intros agg S Hagg k; cbn [fold_left Zsum].
  - by rewrite Z.add_0_r.
  - rewrite (IH (step start end_ kf sf ef agg x)
               (fun k => S k + (if bool_decide (kf x = k)
                                then worth start end_ sf ef x else 0))
               (step_lookup agg S x Hagg)).
    f_equal. lia.
Qed.


End Loop.
(** *** The two loops of GetUsageBetween *)

Lemma effective_end_min (end_ : Time) (c : CurrentSession.t) :
  effective_end end_ c = Z.min end_ (CurrentSession.LastSeenTime c).
Proof.
  unfold effective_end, Before.
  destruct (Z.ltb_spec (CurrentSession.LastSeenTime c) end_); lia.
Qed.

Lemma worth_closed (start end_ : Time) (s : Session.t) :
  worth start end_ Session.StartTime Session.EndTime s
  = closed_contribution start end_ s.
Proof. done. Qed.

Lemma worth_open (start end_ : Time) (c : CurrentSession.t) :
  worth start end_ CurrentSession.StartTime (effective_end end_) c
  = open_contribution start end_ c.
Proof. unfold worth, open_contribution. by rewrite effective_end_min. Qed.

Lemma usageMap_folds (start end_ : Time) (closed : list Session.t)
    (open : list CurrentSession.t) :
  usageMap start end_ closed open
  = fold_left (step start end_ current_key CurrentSession.StartTime
                 (effective_end end_)) open
      (fold_left (step start end_ session_key Session.StartTime Session.EndTime)
         closed ∅).
Proof. done. Qed.

Lemma usageMap_lookup (start end_ : Time) (closed : list Session.t)
    (open : list CurrentSession.t) (k : key) :
  default 0 (usageMap start end_ closed open !! k)
  = wrap64 (Zsum (fun s => if bool_decide (session_key s = k)
                           then closed_contribution start end_ s else 0) closed
            + Zsum (fun c => if bool_decide (current_key c = k)
                             then open_contribution start end_ c else 0) open).
Proof.
  rewrite usageMap_folds.
  rewrite (fold_lookup start end_ current_key CurrentSession.StartTime
             (effective_end end_) open _
             (fun k => 0 + Zsum (fun s => if bool_decide (session_key s = k)
                                          then closed_contribution start end_ s
                                          else 0) closed)).
  - f_equal. rewrite Z.add_0_l. f_equal. apply Zsum_ext. intros c _.
    by rewrite worth_open.
  - intros k'.
    by rewrite (fold_lookup start end_ session_key Session.StartTime
                  Session.EndTime closed ∅ (fun _ => 0)).
Qed.


(** *** The rows the queries return *)

Lemma closed_outside_window (start end_ : Time) (s : Session.t) :
  (start <? Session.EndTime s) && (Session.StartTime s <? end_) = false ->
  closed_contribution start end_ s = 0.
Proof.
  intros H. apply contribution_disjoint. apply andb_false_iff in H as [H|H];
    apply Z.ltb_ge in H; lia.
Qed.

Lemma selected_closed (start end_ : Time) (deviceID : option string) (db : DB)
    (g : Session.t -> bool) :
  Zsum (fun s => if g s then closed_contribution start end_ s else 0)
    (select_sessions_between start end_ deviceID db)
  = Zsum (fun s => if g s && device_ok deviceID (Session.DeviceID s)
                   then closed_contribution start end_ s else 0)
      (sessions db).
Proof.
  unfold select_sessions_between. rewrite Zsum_filter. apply Zsum_ext.
  intros s _.
  destruct ((start <? Session.EndTime s) && (Session.StartTime s <? end_)) eqn:Hw;
    cbn [andb].
  - by destruct (g s), (device_ok deviceID (Session.DeviceID s)).
  - rewrite (closed_outside_window _ _ _ Hw).
    by destruct (g s && device_ok deviceID (Session.DeviceID s)).
Qed.

Lemma selected_open (start end_ : Time) (deviceID : option string) (db : DB)
    (g : CurrentSession.t -> bool) :
  Zsum (fun c => if g c then open_contribution start end_ c else 0)
    (select_current_for deviceID db)
  = Zsum (fun c => if g c && device_ok deviceID (CurrentSession.DeviceID c)
                   then open_contribution start end_ c else 0)
      (current_sessions db).
Proof.
  unfold select_current_for. rewrite Zsum_filter. apply Zsum_ext.
  intros c _.
  by destruct (g c), (device_ok deviceID (CurrentSession.DeviceID c)).
Qed.

(** *** The result list *)

Lemma entry_key_of (kv : key * Z) : entry_key (entry_of kv) = kv.1.
Proof. by destruct kv as [[[d a] n] v]. Qed.

Lemma total_for_map (agg : gmap key Z) (k : key) :
  total_for k (entry_of <$> map_to_list agg) = default 0 (agg !! k).
Proof.
  unfold total_for. rewrite Zsum_fmap.
  induction agg as [|i x m Hi IH] using map_ind.
  - by rewrite map_to_list_empty.
  - rewrite (Zsum_perm _ _ _ (map_to_list_insert _ _ _ Hi)). cbn [Zsum].
    rewrite IH, entry_key_of. cbn.
    case_bool_decide as Hk.
    + subst i. rewrite lookup_insert_eq, Hi. cbn. lia.
    + by rewrite lookup_insert_ne.
Qed.



Lemma GetUsageBetween_runs (db : DB) (start end_ : Time)
    (deviceID : option string) :
  start < end_ ->
  GetUsageBetween no_faults db start end_ deviceID
  = inr (entry_of
           <$> map_to_list
                 (usageMap start end_
                    (select_sessions_between start end_ deviceID db)
                    (select_current_for deviceID db))).
Proof.
  intros H. unfold GetUsageBetween, Before.
  by rewrite (proj2 (Z.ltb_lt _ _) H).
Qed.

Lemma usage_bounds (start end_ : Time) (deviceID : option string) (db : DB)
    (k : key) :
  0 <= usage start end_ deviceID db k
  <= Z.of_nat (List.length (sessions db) + List.length (current_sessions db))
     * 2 ^ 34.
Proof.
  unfold usage.
  pose proof (Zsum_bounds
                (fun s => if bool_decide (session_key s = k)
                             && device_ok deviceID (Session.DeviceID s)
                          then closed_contribution start end_ s else 0)
                (2 ^ 34) (sessions db)) as H1.
  pose proof (Zsum_bounds
                (fun c => if bool_decide (current_key c = k)
                             && device_ok deviceID (CurrentSession.DeviceID c)
                          then open_contribution start end_ c else 0)
                (2 ^ 34) (current_sessions db)) as H2.
  rewrite Nat2Z.inj_add.
  destruct H1 as [? ?].
  { intros s. destruct (_ && _); [apply contribution_bounds | lia]. }
  destruct H2 as [? ?].
  { intros c. destruct (_ && _); [apply contribution_bounds | lia]. }
  lia.
Qed.



(** Scenario S5, with Netflix still open since T0 and last seen at T0+60. *)
Example usage_S5 :
  ∃ out,
    GetUsageBetween no_faults examples.ledger (examples.after 30)
      (examples.after 90) None = inr out
    ∧ total_for ("tv", "A", "a") out = 30
    ∧ total_for ("tv", "B", "b") out = 30
    ∧ total_for ("tv", "NFLX", "Netflix") out = 30
    ∧ List.length out = 3%nat.
Proof. eexists. split; [reflexivity|]. vm_compute. done. Qed.

(** *** Round trip *)





(** The Session rows the store writes are all of that form. *)
Lemma transition_sessions_wf (db : DB) (p : PollUpdate.t) :
  Forall session_wf (sessions db) ->
  Forall session_wf (sessions (transition db p)).
Proof.
  intros Hwf. unfold transition.
  repeat case_decide; try done;
    destruct (select_current (PollUpdate.DeviceID p) db) as [c|]; try done;
    try case_decide; try done;
    cbn [sessions open close]; apply Forall_app; (split; [done|]);
    by repeat constructor.
Qed.

Lemma ApplyPoll_sessions_wf (o : oracle) (db : DB) (p : PollUpdate.t) :
  Forall session_wf (sessions db) ->
  Forall session_wf (sessions (storage.ApplyPoll o db p).1).
Proof.
  intros Hwf.
  destruct (SessionStore.ApplyPoll_runs o db p) as [H|[_ [e H]]]; rewrite H;
    [|done].
  unfold spec.ApplyPollSpec. case_decide; [done|]. by apply transition_sessions_wf.
Qed.

Lemma CloseStale_sessions_wf (o : oracle) (db : DB) (now : Time) :
  Forall session_wf (sessions db) ->
  Forall session_wf (sessions (CloseStaleCurrentSessions o db now).1).
Proof.
  intros Hwf.
  destruct (SessionStore.CloseStale_runs o db now) as [H|[_ [e H]]]; rewrite H;
    [|done].
  unfold reconciled; cbn [fst sessions]. apply Forall_app. split; [done|].
  generalize (sessions_seq db).
  induction (current_sessions db) as [|r rows IH]; intros seq;
    cbn [stale_sessions]; constructor; [done | apply IH].
Qed.

End Usage.

(** ** The poller *)

Module Poller.

Import gostrings poller agents.

Section FaultMapping.

Variable xmlUnmarshal : string -> option activeAppResponse.
Variables (p : RokuPoller) (now : time.Time).

Lemma Poll_unreachable (net : exchange) :
  unreachable net -> Poll xmlUnmarshal p now net = (offline p now, None).
Proof.
  destruct net as [| |code body]; cbn; [done|done|].
  intros Hcode. unfold StatusOK. by rewrite (proj2 (Z.eqb_neq _ _) Hcode).
Qed.

Lemma Poll_surfaced (net : exchange) :
  surfaced xmlUnmarshal net ->
  ∃ e, Poll xmlUnmarshal p now net = (offline p now, Some e).
Proof.
  destruct net as [| |code [|body]]; cbn; [eauto|done| |].
  - intros ->. cbn. eauto.
  - intros [-> Hxml]. cbn. rewrite Hxml. eauto.
Qed.

Lemma Poll_error (net : exchange) (e : string) :
  (Poll xmlUnmarshal p now net).2 = Some e -> surfaced xmlUnmarshal net.
Proof.
  destruct net as [| |code [|body]]; cbn; [done|done| |].
  - unfold StatusOK. destruct (Z.eqb_spec code 200); cbn; done.
  - unfold StatusOK. destruct (Z.eqb_spec code 200); cbn; [|done].
    destruct (xmlUnmarshal body); cbn; [done|]. by intros _.
Qed.

End FaultMapping.

(** C6, as amended. A failed connection and every status other than 200
    give State offline with empty AppID and AppName and a nil error.  An
    error is returned exactly when the request cannot be built, when the
    body of a 200 response cannot be read, or when that body is not the XML
    expected, and then the result is the offline one as well; an empty body
    on a 200 response is such a parse failure, not a silent offline. *)
Theorem Poll_fault_mapping (xmlUnmarshal : string -> option activeAppResponse)
    (p : RokuPoller) (now : time.Time) (net : exchange) :
  (unreachable net -> Poll xmlUnmarshal p now net = (offline p now, None))
  ∧ (surfaced xmlUnmarshal net ->
     ∃ e, Poll xmlUnmarshal p now net = (offline p now, Some e))
  ∧ (∀ e, (Poll xmlUnmarshal p now net).2 = Some e ->
          surfaced xmlUnmarshal net)
  ∧ (xmlUnmarshal "" = None ->
     Poll xmlUnmarshal p now (Response 200 (ReadAll ""))
     = (offline p now, Some "unmarshal active-app response"%string)).
Proof.
  split; [apply Poll_unreachable|].
  split; [apply Poll_surfaced|].
  split; [apply Poll_error|].
  intros Hempty. cbn. by rewrite Hempty.
Qed.

Lemma Poll_fault_mapping_witness :
  Poll xmlActiveApp (mkRokuPoller "tv" "http://192.168.1.20:8060") 0
    (Response 503 (ReadAll "busy"))
  = (offline (mkRokuPoller "tv" "http://192.168.1.20:8060") 0, None)
  ∧ Poll xmlActiveApp (mkRokuPoller "tv" "http://192.168.1.20:8060") 0
      (Response 200 (ReadAll ""))
    = (offline (mkRokuPoller "tv" "http://192.168.1.20:8060") 0,
       Some "unmarshal active-app response"%string).
Proof.
  split.
  - apply (proj1 (Poll_fault_mapping xmlActiveApp
                    (mkRokuPoller "tv" "http://192.168.1.20:8060") 0
                    (Response 503 (ReadAll "busy")))).
    cbn. discriminate.
  - apply (proj2 (proj2 (proj2 (Poll_fault_mapping xmlActiveApp
                    (mkRokuPoller "tv" "http://192.168.1.20:8060") 0
                    DoFails)))).
    reflexivity.
Defined.

(** C6 as stated fails: an empty body on a 200 response is a reachability
    fault in the claim's list, yet Poll returns an error for it. *)
Lemma empty_body_is_an_error :
  ¬ (∀ (xmlUnmarshal : string -> option activeAppResponse)
       (p : RokuPoller) (now : time.Time) (net : exchange),
       xmlUnmarshal "" = None ->
       reachability_fault net ->
       Poll xmlUnmarshal p now net = (offline p now, None)).
Proof.
  intros H.
  specialize (H xmlActiveApp (mkRokuPoller "tv" "http://192.168.1.20:8060") 0
                (Response 200 (ReadAll "")) eq_refl).
  cbn in H. assert (200 < 200 ∨ 299 < 200 ∨ ReadAll "" = ReadAll "") as Hf
    by (right; right; reflexivity).
  specialize (H Hf). discriminate H.
Qed.

(** A well-formed document of an active app, and the home screen. *)
Example Poll_netflix :
  Poll xmlActiveApp (mkRokuPoller "tv" "http://192.168.1.20:8060") 0
    (Response 200
       (ReadAll ("<active-app><app id=" ++ dquote ++ "12" ++ dquote
                 ++ ">Netflix</app></active-app>")))
  = (PollResult.mk "tv" "12" "Netflix" "active" 0, None)
  ∧ Poll xmlActiveApp (mkRokuPoller "tv" "http://192.168.1.20:8060") 0
      (Response 200
         (ReadAll ("<active-app><app id=" ++ dquote ++ "1" ++ dquote
                   ++ "> Roku </app></active-app>")))
    = (PollResult.mk "tv" "1" "Roku" "idle" 0, None).
Proof. split; reflexivity. Qed.

End Poller.

(** ** The categorizer *)

Module Categorizer.

Import gostrings linux agents.

(** *** Suffixes *)

Lemma append_cons (c : ascii) (s t : string) :
  (String c s ++ t)%string = String c (s ++ t)%string.
Proof. done. Qed.






(** *** One category *)



(** *** The loop over the categories *)








(** Scenario S6, in both orders of a map with a second category. *)
Example Categorize_S6 :
  Categorize (map_to_list S6) (stripWWW "www.khanacademy.org") = "homework"%string
  ∧ Categorize (map_to_list S6) "mit.edu" = "homework"%string
  ∧ Categorize (map_to_list S6) "khanacademyfoo.org" = "uncategorized"%string
  ∧ Categorize [("homework"%string, homework);
                ("video"%string, mkCategory ["youtube.com"] [])]
      "m.youtube.com" = "video"%string
  ∧ Categorize [("video"%string, mkCategory ["youtube.com"] []);
                ("homework"%string, homework)]
      "m.youtube.com" = "video"%string.
Proof. repeat split; vm_compute; reflexivity. Qed.



End Categorizer.

(** ** The aggregator configuration *)

Module Configuration.

Import config agents.

(** What LoadConfig makes of the field day_start_hour. *)
Lemma LoadConfig_DayStartHour (doc : configJSON) (cfg : Config.t) :
  LoadConfig (Document doc) = inr cfg ->
  Config.DayStartHour cfg
  = match day_start_hour doc with
    | None => 7
    | Some h => if h =? 0 then 7 else h
    end.
Proof.
  unfold LoadConfig, unmarshal, int_field.
  destruct (day_start_hour doc) as [h|].
  - destruct (fits_int h); [|done].
    destruct (mapM unmarshalDevice (default [] (devices doc))) as [ds|]; [|done].
    cbn [Config.DatabasePath Config.HTTPListen Config.DayStartHour
         Config.Timezone Config.Devices].
    destruct (String.eqb (default "" (database_path doc)) ""); [done|].
    destruct (List.length ds =? 0)%nat; [done|].
    destruct (checkDevices 0 ds); [done|]. by intros [= <-].
  - destruct (mapM unmarshalDevice (default [] (devices doc))) as [ds|]; [|done].
    cbn [Config.DatabasePath Config.HTTPListen Config.DayStartHour
         Config.Timezone Config.Devices].
    destruct (String.eqb (default "" (database_path doc)) ""); [done|].
    destruct (List.length ds =? 0)%nat; [done|].
    destruct (checkDevices 0 ds); [done|]. by intros [= <-].
Qed.

(** The hour does not decide whether the file loads, as long as it fits an
    int. *)
Lemma LoadConfig_loads (db listen tz : option string)
    (ds : option (list deviceJSON)) (h : Z) :
  fits_int h = true ->
  (∃ cfg, LoadConfig (Document (mkConfigJSON db listen None tz ds)) = inr cfg) ->
  ∃ cfg, LoadConfig (Document (mkConfigJSON db listen (Some h) tz ds)) = inr cfg.
Proof.
  intros Hfit [cfg Hcfg]. revert Hcfg.
  unfold LoadConfig, unmarshal, int_field;
    cbn [day_start_hour devices database_path http_listen timezone].
  rewrite Hfit.
  destruct (mapM unmarshalDevice (default [] ds)) as [ds'|]; [|done].
  cbn [Config.DatabasePath Config.HTTPListen Config.DayStartHour
       Config.Timezone Config.Devices].
  destruct (String.eqb (default "" db) ""); [done|].
  destruct (List.length ds' =? 0)%nat; [done|].
  destruct (checkDevices 0 ds'); [done|]. eauto.
Qed.

(** The hours 1..23 are loaded as written, an absent field is 7. *)
Lemma LoadConfig_hours (db listen tz : option string)
    (ds : option (list deviceJSON)) (h : Z) :
  1 <= h <= 23 ->
  (∃ cfg, LoadConfig (Document (mkConfigJSON db listen None tz ds)) = inr cfg
          ∧ Config.DayStartHour cfg = 7) ->
  ∃ cfg, LoadConfig (Document (mkConfigJSON db listen (Some h) tz ds)) = inr cfg
         ∧ Config.DayStartHour cfg = h.
Proof.
  intros Hh (cfg0 & Hcfg0 & _).
  destruct (LoadConfig_loads db listen tz ds h) as [cfg Hcfg]; [|eauto|].
  { unfold fits_int. apply andb_true_iff. split; [apply Z.leb_le|apply Z.ltb_lt]; lia. }
  exists cfg. split; [done|].
  rewrite (LoadConfig_DayStartHour _ _ Hcfg); cbn [day_start_hour].
  destruct (Z.eqb_spec h 0); lia.
Qed.

(** C9 at its failing input: a valid configuration that asks for
    day_start_hour 0 loads, with DayStartHour 7. *)
Theorem LoadConfig_midnight :
  ∃ cfg, LoadConfig (Document midnight) = inr cfg
         ∧ Config.DayStartHour cfg = 7
         ∧ day_start_hour midnight = Some 0.
Proof. eexists. split; [reflexivity|]. split; reflexivity. Qed.

Example LoadConfig_seven_and_absent :
  (∃ cfg, LoadConfig (Document (with_hour (Some 21))) = inr cfg
          ∧ Config.DayStartHour cfg = 21)
  ∧ (∃ cfg, LoadConfig (Document (with_hour None)) = inr cfg
            ∧ Config.DayStartHour cfg = 7).
Proof. split; eexists; split; reflexivity. Qed.

End Configuration.

(** ** The session store: reads, runs of polls, invariants *)

Module StoreLaws.

Import time storage spec queries Durations SessionStore.

(** *** GetSessions *)







(** *** Applying a poll twice *)

Lemma map_other_devices (dev : string)
    (g : CurrentSession.t -> CurrentSession.t) (l : list CurrentSession.t) :
  existsb (has_device dev) l = false ->
  List.map (fun c => if has_device dev c then g c else c) l = l.
Proof.
  induction l as [|c l IH]; cbn; [done|].
  intros H. apply orb_false_iff in H as [Hc Hl]. by rewrite Hc, IH.
Qed.

Lemma heartbeat_after_open (p : PollUpdate.t) (ss : list Session.t) (seq : Z)
    (l : list CurrentSession.t) :
  existsb (has_device (PollUpdate.DeviceID p)) l = false ->
  transition (open p (mkDB ss seq l)) p = open p (mkDB ss seq l)
  ∨ (PollUpdate.State p ≠ "active"
     ∨ PollUpdate.AppID p = "" ∨ PollUpdate.AppName p = "").
Proof.
  intros Habs.
  destruct (decide (PollUpdate.State p = "active")) as [Hs|Hs]; [|by right; left].
  destruct (decide (PollUpdate.AppID p = "" ∨ PollUpdate.AppName p = ""))
    as [He|He]; [right; right; exact He|].
  left. unfold transition.
  rewrite decide_True by done. rewrite decide_False by done.
  unfold select_current, open; cbn [current_sessions sessions sessions_seq].
  rewrite find_app_new by done. cbn [CurrentSession.AppID].
  rewrite decide_True by done.
  unfold heartbeat; cbn [current_sessions sessions sessions_seq]. f_equal.
  rewrite map_app, map_other_devices by done. cbn.
  unfold has_device; cbn. by rewrite String.eqb_refl.
Qed.

Lemma transition_idempotent (db : DB) (p : PollUpdate.t) :
  transition (transition db p) p = transition db p.
Proof.
  remember (transition db p) as db1 eqn:Hdb1. unfold transition in Hdb1.
  destruct (decide (PollUpdate.State p = "active")) as [Hs|Hs].
  - destruct (decide (PollUpdate.AppID p = "" ∨ PollUpdate.AppName p = ""))
      as [He|He].
    { subst db1. unfold transition. by rewrite !decide_True by done. }
    assert (∀ ss seq l,
              existsb (has_device (PollUpdate.DeviceID p)) l = false ->
              transition (open p (mkDB ss seq l)) p = open p (mkDB ss seq l))
      as Hopen.
    { intros ss seq l Hl.
      destruct (heartbeat_after_open p ss seq l Hl) as [H|[H|H]]; done. }
    destruct (select_current (PollUpdate.DeviceID p) db) as [c|] eqn:Hcur.
    + pose proof (select_current_device _ _ _ Hcur) as Hc.
      destruct (decide (CurrentSession.AppID c = PollUpdate.AppID p))
        as [Hsame|Hdiff]; subst db1.
      * unfold transition.
        rewrite decide_True by done. rewrite decide_False by done.
        rewrite select_current_heartbeat, Hcur. cbn [fmap option_fmap option_map].
        assert (has_device (PollUpdate.DeviceID p) c = true) as Hcd
          by (by apply String.eqb_eq).
        rewrite Hcd. cbn [set_last_seen CurrentSession.AppID].
        rewrite decide_True by done.
        unfold heartbeat; cbn [current_sessions sessions sessions_seq]. f_equal.
        rewrite map_map. apply map_ext. intros x.
        destruct (has_device (PollUpdate.DeviceID p) x) eqn:Hx; [|by rewrite Hx].
        unfold has_device in *. cbn. by rewrite Hx.
      * unfold close. apply Hopen. rewrite Hc. apply existsb_filter_negb.
    + subst db1. destruct db as [ss seq l]. apply Hopen.
      by apply find_None_existsb.
  - assert (∀ c reason,
              select_current (PollUpdate.DeviceID p) db = Some c ->
              transition (close c (PollUpdate.Timestamp p) reason db) p
              = close c (PollUpdate.Timestamp p) reason db) as Hclosed.
    { intros c reason Hcur. unfold transition.
      assert (select_current (PollUpdate.DeviceID p)
                (close c (PollUpdate.Timestamp p) reason db) = None) as ->.
      { unfold select_current, close; cbn [current_sessions].
        rewrite (select_current_device _ _ _ Hcur). apply find_filter_negb. }
      rewrite decide_False by done. by repeat case_decide. }
    assert (select_current (PollUpdate.DeviceID p) db = None ->
            transition db p = db) as Hnone.
    { intros Hcur. unfold transition. rewrite Hcur.
      rewrite decide_False by done. by repeat case_decide. }
    assert (PollUpdate.State p ≠ "idle" -> PollUpdate.State p ≠ "offline" ->
            transition db p = db) as Hunknown.
    { intros Hi Hf. unfold transition. by rewrite !decide_False by done. }
    destruct (decide (PollUpdate.State p = "idle")) as [Hi|Hi];
      [|destruct (decide (PollUpdate.State p = "offline")) as [Hf|Hf]];
      destruct (select_current (PollUpdate.DeviceID p) db) as [c|] eqn:Hcur;
      subst db1; auto.
Qed.

(** X2. ApplyPoll is idempotent: delivering the same poll a second time
    (same device, app, state and timestamp) leaves the store exactly as the
    first delivery left it, and returns what the first returned; no second
    Session is written and no row changes. *)
Theorem ApplyPoll_idempotent (db : DB) (p : PollUpdate.t) :
  storage.ApplyPoll no_faults (storage.ApplyPoll no_faults db p).1 p
  = storage.ApplyPoll no_faults db p.
Proof.
  rewrite !ApplyPoll_no_faults. unfold ApplyPollSpec.
  case_decide; [done|]. cbn [fst]. by rewrite transition_idempotent.
Qed.

(** *** What a poll leaves alone *)

Lemma others_app_same (dev : string) (l : list CurrentSession.t)
    (c : CurrentSession.t) :
  has_device dev c = true ->
  List.filter (fun c => negb (has_device dev c)) (l ++ [c])
  = List.filter (fun c => negb (has_device dev c)) l.
Proof. intros Hc. rewrite List.filter_app. cbn. by rewrite Hc, app_nil_r. Qed.

Lemma others_heartbeat (dev : string) (ts : Time) (l : list CurrentSession.t) :
  List.filter (fun c => negb (has_device dev c))
    (List.map (fun c => if has_device dev c then set_last_seen ts c else c) l)
  = List.filter (fun c => negb (has_device dev c)) l.
Proof.
  induction l as [|c l IH]; cbn; [done|].
  destruct (has_device dev c) eqn:Hc; cbn.
  - unfold has_device in *. cbn. by rewrite Hc.
  - by rewrite Hc, IH.
Qed.

Lemma others_twice (dev : string) (l : list CurrentSession.t) :
  List.filter (fun c => negb (has_device dev c))
    (List.filter (fun c => negb (has_device dev c)) l)
  = List.filter (fun c => negb (has_device dev c)) l.
Proof.
  induction l as [|c l IH]; cbn; [done|].
  destruct (has_device dev c) eqn:Hc; cbn; [done|]. by rewrite Hc, IH.
Qed.

Lemma transition_frame (db : DB) (p : PollUpdate.t) :
  others (PollUpdate.DeviceID p) (transition db p)
  = others (PollUpdate.DeviceID p) db
  ∧ ∃ new, sessions (transition db p) = sessions db ++ new
           ∧ (List.length new <= 1)%nat
           ∧ Forall (fun s => Session.DeviceID s = PollUpdate.DeviceID p) new.
Proof.
  assert (∀ db0, sessions db0 = sessions db ->
                 ∃ new, sessions db0 = sessions db ++ new
                        ∧ (List.length new <= 1)%nat
                        ∧ Forall (fun s => Session.DeviceID s
                                           = PollUpdate.DeviceID p) new) as Hsame.
  { intros db0 H. exists []. rewrite app_nil_r. split; [done|].
    split; [cbn; lia | constructor]. }
  assert (has_device (PollUpdate.DeviceID p)
            (CurrentSession.mk (PollUpdate.DeviceID p) (PollUpdate.AppID p)
               (PollUpdate.AppName p) (PollUpdate.Timestamp p)
               (PollUpdate.Timestamp p) "active") = true) as Hnew
    by (unfold has_device; cbn; apply String.eqb_refl).
  unfold transition, others.
  destruct (select_current (PollUpdate.DeviceID p) db) as [c|] eqn:Hcur.
  - pose proof (select_current_device _ _ _ Hcur) as Hc.
    assert (∀ reason,
              ∃ new, sessions (close c (PollUpdate.Timestamp p) reason db)
                     = sessions db ++ new
                     ∧ (List.length new <= 1)%nat
                     ∧ Forall (fun s => Session.DeviceID s
                                        = PollUpdate.DeviceID p) new) as Hclose.
    { intros reason. eexists. split; [done|]. split; [cbn; lia|].
      by repeat constructor. }
    repeat case_decide; try (split; [done | by apply Hsame]).
    + split; [|by apply Hsame]. cbn [heartbeat current_sessions].
      apply others_heartbeat.
    + split; [|apply Hclose]. cbn [open close current_sessions].
      rewrite others_app_same by done. rewrite Hc. apply others_twice.
    + split; [|apply Hclose]. cbn [close current_sessions].
      rewrite Hc. apply others_twice.
    + split; [|apply Hclose]. cbn [close current_sessions].
      rewrite Hc. apply others_twice.
  - repeat case_decide; try (split; [done | by apply Hsame]).
    split; [|by apply Hsame]. cbn [open current_sessions].
    by rewrite others_app_same.
Qed.

(** X3. A poll of one device never touches another device: whatever driver
    calls fail, the current_sessions rows of all other devices are the same
    rows in the same order after ApplyPoll, every Session row that was in
    the table is still there unchanged, and at most one Session is appended,
    which is of the polled device. *)
Theorem ApplyPoll_frame (o : oracle) (db : DB) (p : PollUpdate.t) :
  others (PollUpdate.DeviceID p) (storage.ApplyPoll o db p).1
  = others (PollUpdate.DeviceID p) db
  ∧ ∃ new, sessions (storage.ApplyPoll o db p).1 = sessions db ++ new
           ∧ (List.length new <= 1)%nat
           ∧ Forall (fun s => Session.DeviceID s = PollUpdate.DeviceID p) new.
Proof.
  destruct (ApplyPoll_runs o db p) as [H|[_ [e H]]]; rewrite H; cbn [fst].
  - unfold ApplyPollSpec. case_decide; [|apply transition_frame].
    split; [done|]. exists []. rewrite app_nil_r. split; [done|].
    split; [cbn; lia | constructor].
  - split; [done|]. exists []. rewrite app_nil_r. split; [done|].
    split; [cbn; lia | constructor].
Qed.

(** *** The ids of the sessions table *)

Lemma ids_ok_append (ss : list Session.t) (seq : Z) (cs cs' : list CurrentSession.t)
    (s : Session.t) :
  ids_ok (mkDB ss seq cs) -> Session.ID s = seq + 1 ->
  ids_ok (mkDB (ss ++ [s]) (seq + 1) cs').
Proof.
  unfold ids_ok; cbn [sessions sessions_seq]. intros [Hsort Hle] Hid.
  split.
  - rewrite fmap_app. cbn.
    induction ss as [|x ss IH]; cbn in *.
    + repeat constructor.
    + apply StronglySorted_inv in Hsort as [Hsort Hx].
      apply Forall_cons in Hle as [Hxle Hle].
      constructor; [by apply IH|].
      apply Forall_app. split; [done|]. constructor; [lia | constructor].
  - apply Forall_app. split.
    + eapply Forall_impl; [exact Hle|]. cbn. intros x Hx. lia.
    + constructor; [lia | constructor].
Qed.

Lemma ids_ok_current (ss : list Session.t) (seq : Z)
    (cs cs' : list CurrentSession.t) :
  ids_ok (mkDB ss seq cs) -> ids_ok (mkDB ss seq cs').
Proof. done. Qed.

Lemma transition_ids_ok (db : DB) (p : PollUpdate.t) :
  ids_ok db -> ids_ok (transition db p).
Proof.
  intros Hok. destruct db as [ss seq cs]. unfold transition.
  repeat case_decide; try done;
    destruct (select_current (PollUpdate.DeviceID p) (mkDB ss seq cs)) as [c|];
    try done; try case_decide; try done;
    unfold open, heartbeat, close; cbn [sessions sessions_seq current_sessions];
    try (by apply (ids_ok_current ss seq cs));
    by apply (ids_ok_append ss seq cs).
Qed.

Lemma stale_ids_ok (now : Time) (rows : list CurrentSession.t) :
  ∀ (ss : list Session.t) (seq : Z) (cs cs' : list CurrentSession.t),
    ids_ok (mkDB ss seq cs) ->
    ids_ok (mkDB (ss ++ stale_sessions now seq rows)
              (seq + Z.of_nat (List.length rows)) cs').
Proof.
  induction rows as [|r rows IH]; intros ss seq cs cs' Hok.
  - cbn. rewrite app_nil_r, Z.add_0_r. by apply (ids_ok_current ss seq cs).
  - cbn [stale_sessions List.length].
    replace (ss ++ stale_session now (seq + 1) r :: stale_sessions now (seq + 1) rows)
      with ((ss ++ [stale_session now (seq + 1) r])
            ++ stale_sessions now (seq + 1) rows)
      by (by rewrite <- app_assoc).
    replace (seq + Z.of_nat (S (List.length rows)))
      with (seq + 1 + Z.of_nat (List.length rows)) by lia.
    apply (IH _ _ cs). by apply (ids_ok_append ss seq cs).
Qed.

(** X4. The ids of the sessions table stay unique: if the ids grow along the
    table and none is above the AUTOINCREMENT counter (as in the empty
    database), the same holds after every ApplyPoll and after
    CloseStaleCurrentSessions, whatever driver calls fail; so no two Session
    rows ever share an id. *)
Theorem session_ids_unique :
  ids_ok emptyDB
  ∧ (∀ (o : oracle) (db : DB) (p : PollUpdate.t),
       ids_ok db -> ids_ok (storage.ApplyPoll o db p).1)
  ∧ (∀ (o : oracle) (db : DB) (now : Time),
       ids_ok db -> ids_ok (CloseStaleCurrentSessions o db now).1)
  ∧ (∀ db, ids_ok db -> NoDup (Session.ID <$> sessions db)).
Proof.
  split; [split; constructor|]. split; [|split].
  - intros o db p Hok.
    destruct (ApplyPoll_runs o db p) as [H|[_ [e H]]]; rewrite H; [|done].
    unfold ApplyPollSpec. case_decide; [done|]. by apply transition_ids_ok.
  - intros o db now Hok.
    destruct (CloseStale_runs o db now) as [H|[_ [e H]]]; rewrite H; [|done].
    destruct db as [ss seq cs]. by apply (stale_ids_ok now cs ss seq cs).
  - intros db [Hsort _].
    induction (Session.ID <$> sessions db) as [|x l IH]; [constructor|].
    apply StronglySorted_inv in Hsort as [Hsort Hx].
    constructor; [|by apply IH].
    intros Hin. rewrite Forall_forall in Hx. specialize (Hx x Hin). lia.
Qed.

Lemma session_ids_unique_witness :
  NoDup (Session.ID
           <$> sessions
                 (storage.ApplyPoll no_faults
                    (storage.ApplyPoll no_faults emptyDB
                       (examples.active "NFLX" "Netflix" 0)).1
                    (examples.idle 60)).1).
Proof.
  destruct session_ids_unique as (H0 & Hpoll & _ & Hnodup).
  apply Hnodup. apply Hpoll. apply Hpoll. exact H0.
Defined.

(** *** The open session after a poll *)

Lemma only_row (dev : string) (l : list CurrentSession.t) (c : CurrentSession.t) :
  NoDup (CurrentSession.DeviceID <$> l) ->
  List.find (has_device dev) l = Some c ->
  List.filter (has_device dev) l = [c].
Proof.
  induction l as [|x l IH]; cbn; [done|].
  intros Hnd Hfind. apply NoDup_cons in Hnd as [Hx Hnd].
  destruct (has_device dev x) eqn:Hdx.
  - injection Hfind as ->. f_equal.
    assert (existsb (has_device dev) l = false) as Habs.
    { apply not_true_is_false. intros Hex. apply existsb_exists in Hex as (y & Hy & Hdy).
      apply Hx. apply list_elem_of_fmap. exists y. split; [|by apply list_elem_of_In].
      unfold has_device in *. apply String.eqb_eq in Hdx, Hdy. congruence. }
    clear -Habs. induction l as [|y l IH]; cbn in *; [done|].
    apply orb_false_iff in Habs as [Hy Hl]. rewrite Hy. by apply IH.
  - by apply IH.
Qed.

Lemma GetCurrentSessions_runs (db : DB) :
  GetCurrentSessions no_faults db = inr (current_sessions db).
Proof. done. Qed.

(** X5. What GetCurrentSessions shows for a device after a poll that
    commits (non-empty DeviceID, no failing driver call, a store with at
    most one open session per device): after an idle or an offline poll the
    device has no row; after an active poll with AppID and AppName it has
    exactly one row, for the polled AppID and last seen at the poll's
    timestamp. *)
Theorem status_after_poll (db : DB) (p : PollUpdate.t) :
  PollUpdate.DeviceID p ≠ "" ->
  at_most_one_open db ->
  ∃ rows,
    GetCurrentSessions no_faults (storage.ApplyPoll no_faults db p).1 = inr rows
    ∧ (PollUpdate.State p = "idle" ∨ PollUpdate.State p = "offline" ->
       List.filter (has_device (PollUpdate.DeviceID p)) rows = [])
    ∧ (PollUpdate.State p = "active" -> PollUpdate.AppID p ≠ "" ->
       PollUpdate.AppName p ≠ "" ->
       ∃ c, List.filter (has_device (PollUpdate.DeviceID p)) rows = [c]
            ∧ CurrentSession.AppID c = PollUpdate.AppID p
            ∧ CurrentSession.LastSeenTime c = PollUpdate.Timestamp p).
Proof.
  intros Hdev Hone. eexists. split; [apply GetCurrentSessions_runs|].
  pose proof (ApplyPoll_at_most_one no_faults db p Hone) as Hone'.
  rewrite ApplyPoll_no_faults in *. unfold ApplyPollSpec in *.
  rewrite decide_False in * by done. cbn [fst] in *.
  assert (∀ l, List.find (has_device (PollUpdate.DeviceID p)) l = None ->
               List.filter (has_device (PollUpdate.DeviceID p)) l = []) as Hnone.
  { intros l. induction l as [|x l IH]; cbn; [done|].
    destruct (has_device (PollUpdate.DeviceID p) x); [done | exact IH]. }
  split.
  - intros Hstate. apply Hnone. fold (select_current (PollUpdate.DeviceID p)
                                        (transition db p)).
    unfold transition.
    destruct (select_current (PollUpdate.DeviceID p) db) as [c|] eqn:Hcur.
    + pose proof (select_current_device _ _ _ Hcur) as Hc.
      assert (∀ reason, select_current (PollUpdate.DeviceID p)
                          (close c (PollUpdate.Timestamp p) reason db) = None)
        as Hclosed.
      { intros reason. unfold select_current, close; cbn [current_sessions].
        rewrite Hc. apply find_filter_negb. }
      destruct Hstate as [Hs|Hs]; rewrite Hs;
        rewrite ?decide_False by done; rewrite ?decide_True by done;
        rewrite ?decide_False by done; rewrite ?decide_True by done;
        apply Hclosed.
    + destruct Hstate as [Hs|Hs]; rewrite Hs;
        rewrite ?decide_False by done; rewrite ?decide_True by done;
        rewrite ?decide_False by done; rewrite ?decide_True by done; done.
  - intros Hs Ha Hn.
    assert (∃ c, select_current (PollUpdate.DeviceID p) (transition db p) = Some c
                 ∧ CurrentSession.AppID c = PollUpdate.AppID p
                 ∧ CurrentSession.LastSeenTime c = PollUpdate.Timestamp p)
      as (c & Hc & Hc1 & Hc2).
    { unfold transition at 1.
      rewrite decide_True by done. rewrite decide_False by tauto.
      destruct (select_current (PollUpdate.DeviceID p) db) as [c|] eqn:Hcur.
      - pose proof (select_current_device _ _ _ Hcur) as Hcd.
        case_decide as Hsame.
        + exists (set_last_seen (PollUpdate.Timestamp p) c).
          rewrite select_current_heartbeat, Hcur. cbn.
          assert (has_device (PollUpdate.DeviceID p) c = true) as ->
            by (by apply String.eqb_eq).
          done.
        + eexists. unfold select_current, open, close; cbn [current_sessions].
          rewrite find_app_new; [done|]. rewrite Hcd. apply existsb_filter_negb.
      - eexists. unfold select_current, open; cbn [current_sessions].
        rewrite find_app_new; [done|]. by apply find_None_existsb. }
    exists c. split; [|done]. by apply only_row.
Qed.

Lemma status_after_poll_witness :
  ∃ rows,
    GetCurrentSessions no_faults
      (storage.ApplyPoll no_faults examples.watching
         (examples.active "YT" "YouTube" 90)).1 = inr rows
    ∧ ∃ c, List.filter (has_device "tv") rows = [c]
           ∧ CurrentSession.AppID c = "YT"%string
           ∧ CurrentSession.LastSeenTime c = examples.after 90.
Proof.
  destruct (status_after_poll examples.watching
              (examples.active "YT" "YouTube" 90)) as (rows & H1 & _ & H3).
  - discriminate.
  - apply NoDup_singleton.
  - exists rows. split; [exact H1|].
    apply H3; [reflexivity | discriminate | discriminate].
Defined.

(** *** One session per run of heartbeats *)






(** *** StartTime <= LastSeenTime *)

Lemma transition_current_wf (db : DB) (p : PollUpdate.t) :
  Forall current_wf (current_sessions db) ->
  (∀ c, c ∈ current_sessions db ->
        CurrentSession.DeviceID c = PollUpdate.DeviceID p ->
        CurrentSession.StartTime c <= PollUpdate.Timestamp p) ->
  Forall current_wf (current_sessions (transition db p)).
Proof.
  intros Hwf Hts.
  assert (∀ l, Forall current_wf l ->
               Forall current_wf
                 (l ++ [CurrentSession.mk (PollUpdate.DeviceID p)
                          (PollUpdate.AppID p) (PollUpdate.AppName p)
                          (PollUpdate.Timestamp p) (PollUpdate.Timestamp p)
                          "active"])) as Hopen.
  { intros l Hl. apply Forall_app. split; [done|].
    constructor; [|constructor]. unfold current_wf; cbn. lia. }
  assert (∀ c reason,
            Forall current_wf
              (current_sessions (close c (PollUpdate.Timestamp p) reason db)))
    as Hclose.
  { intros c reason. unfold close; cbn [current_sessions].
    rewrite Forall_forall in *. intros x Hx. apply Hwf.
    apply list_elem_of_In, filter_In in Hx as [Hx _]. by apply list_elem_of_In. }
  unfold transition.
  destruct (select_current (PollUpdate.DeviceID p) db) as [c|];
    repeat case_decide; try done; try apply Hclose.
  - unfold heartbeat; cbn [current_sessions].
    rewrite Forall_forall in *. intros x Hx.
    apply list_elem_of_In, in_map_iff in Hx as (y & <- & Hy).
    apply list_elem_of_In in Hy.
    destruct (has_device (PollUpdate.DeviceID p) y) eqn:Hdy; [|by apply Hwf].
    unfold current_wf; cbn. apply Hts; [done|]. by apply String.eqb_eq.
  - unfold open at 1; cbn [current_sessions]. apply Hopen, Hclose.
  - unfold open; cbn [current_sessions]. by apply Hopen.
Qed.

(** X7. StartTime <= LastSeenTime is kept by polls that are not stamped
    before the start of the device's open session: if it holds for every
    open session and the poll's timestamp is not before the StartTime of
    the rows of its device, it holds for every open session after ApplyPoll,
    whatever driver calls fail.  A same-app poll stamped before the start
    does break it: ApplyPoll writes its timestamp as LastSeenTime. *)
Theorem open_sessions_well_formed :
  (∀ (o : oracle) (db : DB) (p : PollUpdate.t),
     Forall current_wf (current_sessions db) ->
     (∀ c, c ∈ current_sessions db ->
           CurrentSession.DeviceID c = PollUpdate.DeviceID p ->
           CurrentSession.StartTime c <= PollUpdate.Timestamp p) ->
     Forall current_wf (current_sessions (storage.ApplyPoll o db p).1))
  ∧ (Forall current_wf (current_sessions examples.watching)
     ∧ ¬ Forall current_wf
           (current_sessions
              (storage.ApplyPoll no_faults examples.watching
                 (examples.active "NFLX" "Netflix" (-5))).1)).
Proof.
  split.
  - intros o db p Hwf Hts.
    destruct (ApplyPoll_runs o db p) as [H|[_ [e H]]]; rewrite H; [|done].
    unfold ApplyPollSpec. case_decide; [done|]. by apply transition_current_wf.
  - split.
    + repeat constructor. unfold current_wf. vm_compute. discriminate.
    + intros H. apply Forall_inv in H. unfold current_wf in H.
      vm_compute in H. by apply H.
Qed.

Lemma open_sessions_well_formed_witness :
  Forall current_wf
    (current_sessions
       (storage.ApplyPoll no_faults examples.watching
          (examples.active "NFLX" "Netflix" 90)).1).
Proof.
  apply (proj1 open_sessions_well_formed).
  - repeat constructor. unfold current_wf. vm_compute. discriminate.
  - intros c Hc _. apply list_elem_of_singleton in Hc as ->.
    vm_compute. discriminate.
Defined.

End StoreLaws.

(** ** Usage: what reports keep, how windows compose, which keys appear *)

Module UsageLaws.

Import time storage spec aggregation queries Durations SessionStore Usage.

Lemma GetUsageBetween_totals (db : DB) (start end_ : Time)
    (deviceID : option string) :
  start < end_ ->
  ∃ out,
    GetUsageBetween no_faults db start end_ deviceID = inr out
    ∧ ∀ k, total_for k out = wrap64 (usage start end_ deviceID db k).
Proof.
  intros Hlt. eexists. split; [by apply GetUsageBetween_runs|].
  intros k. rewrite total_for_map, usageMap_lookup. unfold usage.
  by rewrite selected_closed, selected_open.
Qed.

Lemma GetUsageBetween_exact (db : DB) (start end_ : Time)
    (deviceID : option string) :
  start < end_ ->
  Z.of_nat (List.length (sessions db) + List.length (current_sessions db))
  < 2 ^ 29 ->
  ∃ out,
    GetUsageBetween no_faults db start end_ deviceID = inr out
    ∧ ∀ k, total_for k out = usage start end_ deviceID db k.
Proof.
  intros Hlt Hrows.
  destruct (GetUsageBetween_totals db start end_ deviceID Hlt) as (out & H1 & H2).
  exists out. split; [done|]. intros k. rewrite H2. apply wrap64_id.
  pose proof (usage_bounds start end_ deviceID db k). lia.
Qed.

(** *** Startup reconciliation and the reports *)

Lemma contribution_end_clipped (start end_ sStart sEnd : Time) :
  contribution start end_ sStart (Z.min end_ sEnd)
  = contribution start end_ sStart sEnd.
Proof. unfold contribution. by rewrite Z.min_assoc, Z.min_id. Qed.

Lemma stale_session_worth (start end_ now : Time) (id : Z) (r : CurrentSession.t) :
  CurrentSession.StartTime r <= CurrentSession.LastSeenTime r <= now ->
  closed_contribution start end_ (stale_session now id r)
  = open_contribution start end_ r.
Proof.
  intros H. unfold closed_contribution, open_contribution, stale_session;
    cbn [Session.StartTime Session.EndTime].
  rewrite contribution_end_clipped. by rewrite Z.min_l, Z.max_r by lia.
Qed.

Lemma stale_sessions_worth (start end_ now : Time) (deviceID : option string)
    (k : key) (rows : list CurrentSession.t) :
  Forall (fun c => CurrentSession.StartTime c <= CurrentSession.LastSeenTime c
                   <= now) rows ->
  ∀ seq,
    Zsum (fun s => if bool_decide (session_key s = k)
                      && device_ok deviceID (Session.DeviceID s)
                   then closed_contribution start end_ s else 0)
      (stale_sessions now seq rows)
    = Zsum (fun c => if bool_decide (current_key c = k)
                        && device_ok deviceID (CurrentSession.DeviceID c)
                     then open_contribution start end_ c else 0) rows.
Proof.
  induction 1 as [|r rows Hr _ IH]; intros seq; cbn [stale_sessions Zsum]; [done|].
  rewrite IH. f_equal. rewrite (stale_session_worth _ _ _ _ _ Hr). done.
Qed.

(** X8. Startup reconciliation changes no usage report: when every open
    session has StartTime <= LastSeenTime <= now, GetUsageBetween credits
    every (DeviceID, AppID, AppName) the same seconds after
    CloseStaleCurrentSessions(now) as before it, for every window and device
    filter. *)
Theorem reconciliation_keeps_usage (db : DB) (now start end_ : Time)
    (deviceID : option string) :
  start < end_ ->
  Forall (fun c => CurrentSession.StartTime c <= CurrentSession.LastSeenTime c
                   <= now) (current_sessions db) ->
  ∃ before after,
    GetUsageBetween no_faults db start end_ deviceID = inr before
    ∧ GetUsageBetween no_faults (CloseStaleCurrentSessions no_faults db now).1
        start end_ deviceID = inr after
    ∧ ∀ k, total_for k after = total_for k before.
Proof.
  intros Hlt Hrows.
  destruct (GetUsageBetween_totals db start end_ deviceID Hlt)
    as (before & Hb & Hbk).
  destruct (GetUsageBetween_totals (CloseStaleCurrentSessions no_faults db now).1
              start end_ deviceID Hlt) as (after & Ha & Hak).
  exists before, after. split; [done|]. split; [done|].
  intros k. rewrite Hak, Hbk. f_equal.
  destruct (CloseStale_runs no_faults db now) as [H|[[n Hn] _]];
    [|discriminate Hn].
  rewrite H. unfold usage, reconciled; cbn [fst sessions current_sessions Zsum].
  rewrite Zsum_app, (stale_sessions_worth start end_ now deviceID k _ Hrows). lia.
Qed.

Lemma reconciliation_keeps_usage_witness :
  ∃ before after,
    GetUsageBetween no_faults examples.ledger (examples.after 30)
      (examples.after 90) None = inr before
    ∧ GetUsageBetween no_faults
        (CloseStaleCurrentSessions no_faults examples.ledger
           (examples.after 1000)).1
        (examples.after 30) (examples.after 90) None = inr after
    ∧ ∀ k, total_for k after = total_for k before.
Proof.
  apply (reconciliation_keeps_usage examples.ledger (examples.after 1000)
           (examples.after 30) (examples.after 90) None).
  - reflexivity.
  - repeat constructor; vm_compute; discriminate.
Defined.

(** *** Adjacent windows *)









(** *** Which keys get an entry *)

Section Keys.

Context {A : Type} (start end_ : Time).
Context (kf : A -> key) (sf ef : A -> Time).

Lemma step_keys (agg : gmap key Z) (x : A) (k : key) :
  is_Some (step start end_ kf sf ef agg x !! k)
  ↔ is_Some (agg !! k)
    ∨ (kf x = k ∧ Z.max start (sf x) < Z.min end_ (ef x)).
Proof.
  unfold step.
  destruct (addClipped_eq start end_ agg (kf x) (sf x) (ef x)) as [-> _].
  destruct (Z.ltb_spec (Z.max start (sf x)) (Z.min end_ (ef x))) as [Hlt|Hge].
  - destruct (decide (kf x = k)) as [<-|Hne].
    + rewrite lookup_insert_eq. split; [intros _; by right | by eauto].
    + rewrite lookup_insert_ne by done. split; [by left|].
      intros [H|[H _]]; [done | by destruct Hne].
  - split; [by left|]. intros [H|[_ H]]; [done | lia].
Qed.

Lemma fold_keys (rows : list A) :
  ∀ (agg : gmap key Z) (k : key),
    is_Some (fold_left (step start end_ kf sf ef) rows agg !! k)
    ↔ is_Some (agg !! k)
      ∨ ∃ x, x ∈ rows ∧ kf x = k
             ∧ Z.max start (sf x) < Z.min end_ (ef x).
Proof.
  induction rows as [|x rows IH]; intros agg k; cbn [fold_left].
  - split; [by left|]. intros [H|(x & Hx & _)]; [done|].
    by apply elem_of_nil in Hx.
  - rewrite IH, step_keys. split.
    + intros [[H|[H1 H2]]|(y & Hy & H1 & H2)].
      * by left.
      * right. exists x. split; [apply list_elem_of_here | done].
      * right. exists y. split; [by apply list_elem_of_further | done].
    + intros [H|(y & Hy & H1 & H2)]; [by left; left|].
      apply elem_of_cons in Hy as [->|Hy]; [left; right; done|].
      right. by exists y.
Qed.

End Keys.

Lemma entries_keys (agg : gmap key Z) (k : key) :
  k ∈ entry_key <$> (entry_of <$> map_to_list agg) ↔ is_Some (agg !! k).
Proof.
  rewrite <- list_fmap_compose.
  rewrite (list_fmap_ext (entry_key ∘ entry_of) fst (map_to_list agg))
    by (intros i kv _; apply entry_key_of).
  rewrite list_elem_of_fmap. split.
  - intros ([k' v] & -> & Hin). apply elem_of_map_to_list in Hin. by eexists.
  - intros [v Hv]. exists (k, v). split; [done|]. by apply elem_of_map_to_list.
Qed.

Lemma usageMap_keys (db : DB) (start end_ : Time) (deviceID : option string)
    (k : key) :
  is_Some (usageMap start end_ (select_sessions_between start end_ deviceID db)
             (select_current_for deviceID db) !! k)
  ↔ (∃ s, s ∈ sessions db ∧ session_key s = k
          ∧ device_ok deviceID (Session.DeviceID s) = true
          ∧ Z.max start (Session.StartTime s) < Z.min end_ (Session.EndTime s))
    ∨ (∃ c, c ∈ current_sessions db ∧ current_key c = k
            ∧ device_ok deviceID (CurrentSession.DeviceID c) = true
            ∧ Z.max start (CurrentSession.StartTime c)
              < Z.min end_ (CurrentSession.LastSeenTime c)).
Proof.
  rewrite usageMap_folds, !fold_keys, lookup_empty.
  unfold select_sessions_between, select_current_for. split.
  - intros [[H|(s & Hs & Hk & Ho)]|(c & Hc & Hk & Ho)].
    + by destruct H.
    + left. apply list_elem_of_In, filter_In in Hs as [Hs Hf].
      apply andb_true_iff in Hf as [_ Hd]. exists s.
      by rewrite list_elem_of_In.
    + right. apply list_elem_of_In, filter_In in Hc as [Hc Hd]. exists c.
      rewrite effective_end_min in Ho. rewrite list_elem_of_In.
      repeat split; try done. lia.
  - intros [(s & Hs & Hk & Hd & Ho)|(c & Hc & Hk & Hd & Ho)].
    + left. right. exists s. split; [|done].
      apply list_elem_of_In, filter_In. split; [by apply list_elem_of_In|].
      rewrite Hd, andb_true_r. apply andb_true_iff.
      split; apply Z.ltb_lt; lia.
    + right. exists c. split.
      { apply list_elem_of_In, filter_In. split; [by apply list_elem_of_In|done]. }
      split; [done|]. rewrite effective_end_min. lia.
Qed.

Lemma GetUsageBetween_keys (db : DB) (start end_ : Time)
    (deviceID : option string) :
  start < end_ ->
  ∃ out,
    GetUsageBetween no_faults db start end_ deviceID = inr out
    ∧ ∀ k, k ∈ entry_key <$> out
           ↔ (∃ s, s ∈ sessions db ∧ session_key s = k
                   ∧ device_ok deviceID (Session.DeviceID s) = true
                   ∧ Z.max start (Session.StartTime s)
                     < Z.min end_ (Session.EndTime s))
             ∨ (∃ c, c ∈ current_sessions db ∧ current_key c = k
                     ∧ device_ok deviceID (CurrentSession.DeviceID c) = true
                     ∧ Z.max start (CurrentSession.StartTime c)
                       < Z.min end_ (CurrentSession.LastSeenTime c)).
Proof.
  intros Hlt. eexists. split; [by apply GetUsageBetween_runs|].
  intros k. rewrite entries_keys. apply usageMap_keys.
Qed.

(** X10. Which keys a usage report lists: for start < end, GetUsageBetween
    has an entry for a (DeviceID, AppID, AppName) exactly when a closed
    session of that key (let through by the device filter) overlaps the
    window by a positive duration, or an open session of that key does so
    up to its LastSeenTime; a key without such a session never appears, and
    an overlap shorter than a second still gives an entry (with 0 seconds). *)
Theorem usage_entries (db : DB) (start end_ : Time) (deviceID : option string) :
  start < end_ ->
  ∃ out,
    GetUsageBetween no_faults db start end_ deviceID = inr out
    ∧ ∀ k, k ∈ entry_key <$> out
           ↔ (∃ s, s ∈ sessions db ∧ session_key s = k
                   ∧ device_ok deviceID (Session.DeviceID s) = true
                   ∧ Z.max start (Session.StartTime s)
                     < Z.min end_ (Session.EndTime s))
             ∨ (∃ c, c ∈ current_sessions db ∧ current_key c = k
                     ∧ device_ok deviceID (CurrentSession.DeviceID c) = true
                     ∧ Z.max start (CurrentSession.StartTime c)
                       < Z.min end_ (CurrentSession.LastSeenTime c)).
Proof.
  intros Hlt. eexists. split; [by apply GetUsageBetween_runs|].
  intros k. rewrite entries_keys. apply usageMap_keys.
Qed.

Lemma usage_entries_witness :
  ∃ out,
    GetUsageBetween no_faults examples.ledger (examples.after 70)
      (examples.after 90) None = inr out
    ∧ entry_key <$> out = [("tv", "B", "b")].
Proof.
  destruct (usage_entries examples.ledger (examples.after 70)
              (examples.after 90) None) as (out & H1 & _); [reflexivity|].
  exists out. split; [exact H1|].
  assert (inr out
          = GetUsageBetween no_faults examples.ledger (examples.after 70)
              (examples.after 90) None) as H2 by (by rewrite H1).
  vm_compute in H2. injection H2 as ->. reflexivity.
Defined.

(** X11. The device filter only selects: with deviceID = d every entry of
    GetUsageBetween is of device d, and it credits each key of device d the
    same seconds as the report without a filter does. *)
Theorem usage_device_filter (db : DB) (start end_ : Time) (d : string) :
  start < end_ ->
  ∃ filtered all,
    GetUsageBetween no_faults db start end_ (Some d) = inr filtered
    ∧ GetUsageBetween no_faults db start end_ None = inr all
    ∧ Forall (fun e => UsageEntry.DeviceID e = d) filtered
    ∧ ∀ app name, total_for (d, app, name) filtered
                  = total_for (d, app, name) all.
Proof.
  intros Hlt.
  destruct (GetUsageBetween_totals db start end_ (Some d) Hlt) as (f & Hf & Kf).
  destruct (GetUsageBetween_totals db start end_ None Hlt) as (a & Ha & Ka).
  destruct (GetUsageBetween_keys db start end_ (Some d) Hlt) as (f' & Hf' & Hkeys).
  rewrite Hf in Hf'. injection Hf' as <-.
  exists f, a. split; [done|]. split; [done|]. split.
  - apply Forall_forall. intros e He.
    assert (entry_key e ∈ entry_key <$> f) as Hk
      by (apply list_elem_of_fmap; eauto).
    apply Hkeys in Hk as [(s & _ & Hs & Hd & _)|(c & _ & Hc & Hd & _)];
      cbn in Hd; apply String.eqb_eq in Hd.
    + unfold session_key, entry_key in Hs. congruence.
    + unfold current_key, entry_key in Hc. congruence.
  - intros app name. rewrite Kf, Ka. f_equal. unfold usage. f_equal.
    + apply Zsum_ext. intros s _. case_bool_decide as Hk; [|done].
      unfold session_key in Hk. injection Hk as Hd _ _. cbn.
      by rewrite Hd, String.eqb_refl.
    + apply Zsum_ext. intros c _. case_bool_decide as Hk; [|done].
      unfold current_key in Hk. injection Hk as Hd _ _. cbn.
      by rewrite Hd, String.eqb_refl.
Qed.

Lemma usage_device_filter_witness :
  ∃ filtered all,
    GetUsageBetween no_faults examples.ledger (examples.after 30)
      (examples.after 90) (Some "tv"%string) = inr filtered
    ∧ GetUsageBetween no_faults examples.ledger (examples.after 30)
        (examples.after 90) None = inr all
    ∧ Forall (fun e => UsageEntry.DeviceID e = "tv"%string) filtered
    ∧ ∀ app name, total_for ("tv"%string, app, name) filtered
                  = total_for ("tv"%string, app, name) all.
Proof.
  apply (usage_device_filter examples.ledger (examples.after 30)
           (examples.after 90) "tv").
  reflexivity.
Defined.

End UsageLaws.

(** ** The poll runner *)

Module RunnerLaws.

Import time gostrings gostrings2 poller storage spec agents runner
  SessionStore Categorizer Poller.

(** *** NewRokuPoller *)

Lemma not_ends_with_empty (t : string) : t ≠ "" -> ¬ ends_with "" t.
Proof.
  intros Ht [pre H]. destruct pre as [|c pre]; [|discriminate H].
  by destruct Ht.
Qed.

Lemma ends_with_cons (x : ascii) (r t : string) :
  r ≠ "" -> ends_with (String x r) t -> t = String x r ∨ ends_with r t.
Proof.
  intros Hr [pre H]. destruct pre as [|c pre].
  - left. done.
  - right. rewrite append_cons in H. injection H as _ H. by exists pre.
Qed.

Lemma TrimRight_slash (s : string) :
  ∃ n, s = (TrimRight s "/" ++ slashes n)%string
       ∧ ¬ ends_with (TrimRight s "/") "/".
Proof.
  induction s as [|x s (n & Hs & Hend)].
  - exists 0%nat. split; [done|]. by apply not_ends_with_empty.
  - cbn [TrimRight].
    destruct (String.eqb_spec (TrimRight s "/") "") as [Hr|Hr]; cbn [andb].
    + cbn [inCutset]. rewrite orb_false_r.
      destruct (Ascii.eqb_spec "/" x) as [<-|Hx].
      * exists (S n). split; [|by apply not_ends_with_empty].
        rewrite Hr in Hs. cbn. by rewrite Hs at 1.
      * exists n. split; [by rewrite append_cons, <- Hs|].
        rewrite Hr. intros [pre H].
        destruct pre as [|c pre]; [by injection H as ->|].
        rewrite append_cons in H. injection H as _ H. by destruct pre.
    + exists n. split; [by rewrite append_cons, <- Hs|].
      intros H. apply ends_with_cons in H as [H|H]; [|done|done].
      injection H as _ H. by destruct Hr.
Qed.

(** X12. NewRokuPoller strips the trailing slashes of the base URL and
    nothing else: the URL given is the URL kept followed by slashes only,
    and the URL kept does not end with a slash. *)
Theorem NewRokuPoller_baseURL (deviceID url : string) :
  deviceID = poller.deviceID (NewRokuPoller deviceID url)
  ∧ ∃ n, url = (baseURL (NewRokuPoller deviceID url) ++ slashes n)%string
         ∧ ¬ ends_with (baseURL (NewRokuPoller deviceID url)) "/".
Proof. split; [done|]. apply TrimRight_slash. Qed.

Example NewRokuPoller_slashes :
  baseURL (NewRokuPoller "tv" "http://192.168.1.20:8060//")
  = "http://192.168.1.20:8060"%string
  ∧ baseURL (NewRokuPoller "tv" "///") = ""%string
  ∧ baseURL (NewRokuPoller "tv" "http://tv/a/b") = "http://tv/a/b"%string.
Proof. repeat split; reflexivity. Qed.

(** *** Poll *)

(** X13. What every PollResult looks like, whatever the device answers: it
    carries the poller's DeviceID and the time of the poll, its State is
    active, idle or offline; an active result has a non-empty AppName that
    is not one of the idle names; an offline result has neither AppID nor
    AppName; and a result returned with an error is offline. *)
Theorem Poll_result (xmlUnmarshal : string -> option activeAppResponse)
    (p : RokuPoller) (now : Time) (net : exchange) :
  let res := (Poll xmlUnmarshal p now net).1 in
  PollResult.DeviceID res = deviceID p
  ∧ PollResult.Timestamp res = now
  ∧ (PollResult.State res = "active" ∨ PollResult.State res = "idle"
     ∨ PollResult.State res = "offline")
  ∧ (PollResult.State res = "active" ->
     PollResult.AppName res ≠ "" ∧ isIdleAppName (PollResult.AppName res) = false)
  ∧ (PollResult.State res = "offline" ->
     PollResult.AppID res = "" ∧ PollResult.AppName res = "")
  ∧ ((Poll xmlUnmarshal p now net).2 ≠ None -> PollResult.State res = "offline").
Proof.
  destruct net as [| |code [|body]]; cbn; try (repeat split; auto; done).
  - destruct (negb (code =? StatusOK)); cbn; repeat split; auto; done.
  - destruct (negb (code =? StatusOK)); cbn; [repeat split; auto; done|].
    destruct (xmlUnmarshal body) as [a|]; cbn; [|repeat split; auto; done].
    destruct (String.eqb_spec (TrimSpace (App_Name a)) "") as [He|He]; cbn.
    + repeat split; auto; done.
    + destruct (isIdleAppName (TrimSpace (App_Name a))) eqn:Hidle; cbn;
        repeat split; auto; done.
Qed.

(** *** One poll of a device, applied *)




End RunnerLaws.

(** ** The desktop agent: window tests, detection, what the poller sees *)

Module AgentLaws.

Import time gostrings gostrings2 poller storage spec agents window steam
  firefox detector Categorizer.

(** *** Prefixes and substrings *)

Lemma HasPrefix_nil (s : string) : HasPrefix s "" = true.
Proof. unfold HasPrefix. by destruct s. Qed.

Lemma HasPrefix_cons (c d : ascii) (s p : string) :
  HasPrefix (String c s) (String d p) = Ascii.eqb c d && HasPrefix s p.
Proof.
  unfold HasPrefix. cbn [String.length String.substring].
  change (S (String.length p) <=? S (String.length s))%nat
    with (String.length p <=? String.length s)%nat.
  destruct (String.length p <=? String.length s)%nat; cbn [andb].
  - change (String.eqb (String c ?x) (String d p)) with
      (Ascii.eqb c d && String.eqb x p). cbn [String.eqb].
    by destruct (Ascii.eqb c d).
  - by rewrite andb_false_r.
Qed.

Lemma HasPrefix_spec (s p : string) :
  HasPrefix s p = true ↔ ∃ post, s = (p ++ post)%string.
Proof.
  revert s. induction p as [|d p IH]; intros s.
  - rewrite HasPrefix_nil. split; [by exists s|done].
  - destruct s as [|c s].
    + split; [done|]. by intros [post H].
    + rewrite HasPrefix_cons, andb_true_iff, IH. split.
      * intros [Hc [post ->]]. apply Ascii.eqb_eq in Hc as ->. by exists post.
      * intros [post H]. rewrite append_cons in H. injection H as -> ->.
        split; [apply Ascii.eqb_refl|by exists post].
Qed.

Lemma Contains_spec (s sub : string) :
  Contains s sub = true ↔ ∃ pre post, s = (pre ++ sub ++ post)%string.
Proof.
  induction s as [|c s IH].
  - cbn [Contains]. rewrite orb_false_r, HasPrefix_spec. split.
    + intros [post H]. by exists ""%string, post.
    + intros (pre & post & H). destruct pre as [|x pre]; [by exists post|].
      by rewrite append_cons in H.
  - cbn [Contains]. rewrite orb_true_iff, HasPrefix_spec, IH. split.
    + intros [[post H]|(pre & post & H)].
      * by exists ""%string, post.
      * exists (String c pre), post. by rewrite append_cons, H.
    + intros (pre & post & H). destruct pre as [|x pre].
      * left. by exists post.
      * right. rewrite append_cons in H. injection H as _ H.
        by exists pre, post.
Qed.

Lemma Contains_nil (s : string) : Contains s "" = true.
Proof. apply Contains_spec. by exists ""%string, s. Qed.




(** *** IsIdle, IsIgnored, IsBrowser *)


Example window_tests_samples :
  IsIdle (Some (WindowInfo.mk "XScreenSaver: locked" "" "")) ["screensaver"]%string
  = true
  ∧ IsIdle (Some (WindowInfo.mk "Essay.odt" "soffice" "soffice")) [""]%string = true
  ∧ IsBrowser (Some (WindowInfo.mk "Console" "Operator" "Operator")) = true
  ∧ IsBrowser (Some (WindowInfo.mk "Mail" "Thunderbird" "thunderbird")) = false.
Proof. repeat split; reflexivity. Qed.

(** *** Detect *)

Lemma HasPrefix_app (p s : string) : HasPrefix (p ++ s) p = true.
Proof. apply HasPrefix_spec. by exists s. Qed.

(** X16. The activity Detect reports.  A running game wins over every
    window.  The state is offline exactly when there is no game and the
    window probe failed; it is idle exactly when there is no game and no
    window is focused, or the focused window is idle or ignored, whatever
    the browser shows; otherwise it is active.  An idle activity has an id
    that starts with idle:, an active one an id that starts with steam:,
    browser: or window:, and the offline one is unknown. *)
Theorem Detect_activity (cfg : LinuxConfig.t)
    (order : list (string * linux.Category)) (game : option SteamGame.t)
    (probe : windowProbe) (tab : option BrowserTab.t) :
  let a := Detect cfg order game probe tab in
  (∀ g, game = Some g ->
        a = Activity.mk ("steam:" ++ SteamGame.AppID g) (SteamGame.Name g) "active")
  ∧ (Activity.State a = "offline"%string ↔ game = None ∧ probe = WindowFails)
  ∧ (Activity.State a = "idle"%string
     ↔ game = None
       ∧ (probe = Window None
          ∨ ∃ w, probe = Window (Some w)
                 ∧ (IsIdle (Some w) (LinuxConfig.IdleWindowPatterns cfg) = true
                    ∨ IsIgnored (Some w) (LinuxConfig.IgnoredWindows cfg) = true)))
  ∧ (Activity.State a = "active"%string ∨ Activity.State a = "idle"%string
     ∨ Activity.State a = "offline"%string)
  ∧ (Activity.State a = "idle"%string -> HasPrefix (Activity.ID a) "idle:" = true)
  ∧ (Activity.State a = "offline"%string -> Activity.ID a = "unknown"%string)
  ∧ (Activity.State a = "active"%string ->
     HasPrefix (Activity.ID a) "steam:" = true
     ∨ HasPrefix (Activity.ID a) "browser:" = true
     ∨ HasPrefix (Activity.ID a) "window:" = true).
Proof.
  cbv zeta. unfold Detect.
  destruct game as [g|]; [|destruct probe as [|[w|]]];
    [ | |
      destruct (IsIdle (Some w) (LinuxConfig.IdleWindowPatterns cfg)) eqn:Hidle;
      [|destruct (IsIgnored (Some w) (LinuxConfig.IgnoredWindows cfg)) eqn:Hign;
        [|destruct (IsBrowser (Some w));
          [destruct tab as [t|];
           [destruct (negb (String.eqb (BrowserTab.Domain t) ""))|]|]]]
    | ];
    cbn [Activity.State Activity.ID];
    (split; [intros g' Hg; first [by injection Hg as <- | discriminate Hg]|]);
    (split; [split; [intros H; first [discriminate H | done]
                    |intros [H1 H2];
                     first [discriminate H1 | discriminate H2 | done]]|]);
    (split; [split;
             [intros H;
              first [discriminate H
                    | split; [done|];
                      first [by left | right; exists w; split; [done|]; auto]]
             |intros [H1 H2];
              first [discriminate H1 | done
                    | destruct H2 as [H2|(w0 & H2 & H3)];
                      [discriminate H2
                      |first [discriminate H2
                             | injection H2 as <-; destruct H3; congruence]]]]|]);
    (split; [auto|]);
    (split; [intros H; first [discriminate H | reflexivity]|]);
    (split; [intros H; first [discriminate H | reflexivity]|]);
    intros H;
    first [ discriminate H
          | left; apply (HasPrefix_app "steam:")
          | right; left; apply (HasPrefix_app "browser:")
          | right; right; apply (HasPrefix_app "window:") ].
Qed.

(** *** The Steam log *)

Section SteamLog.

Variable steamEventRe : string -> option (string * string).

Lemma scan_no_start (post : list string) :
  Forall (fun x => is_start steamEventRe x = false) post ->
  ∀ cur, fold_left (scanLine steamEventRe) post cur
         = if existsb (mentions steamEventRe cur) post then ""%string else cur.
Proof.
  induction 1 as [|x post Hx _ IH]; intros cur; [done|].
  cbn [fold_left existsb]. rewrite IH.
  assert (scanLine steamEventRe cur x
          = if mentions steamEventRe cur x then ""%string else cur) as ->.
  { unfold scanLine, mentions. unfold is_start in Hx.
    destruct (steamEventRe x) as [[a events]|]; [|done].
    by rewrite Hx, (String.eqb_sym a cur). }
  destruct (mentions steamEventRe cur x); [|done].
  cbn [orb]. by destruct (existsb _ post).
Qed.

Lemma scan_start (pre : list string) (l a events : string) (cur : string) :
  steamEventRe l = Some (a, events) -> isRunning events = true ->
  fold_left (scanLine steamEventRe) (pre ++ [l]) cur = a.
Proof.
  intros Hl Hrun. rewrite fold_left_app. cbn [fold_left].
  unfold scanLine at 1. by rewrite Hl, Hrun.
Qed.

(** X17. The game runningGameFromLog reports.  With no line that reports
    an app as running there is none.  Otherwise let the last such line be
    about app a: the game is a, unless a later line is about a, in which
    case there is none.  So only the app started last is followed: when it
    stops, no game is reported, whatever started before it. *)
Theorem runningGameFromLog_last (lines : list string) :
  (Forall (fun x => is_start steamEventRe x = false) lines ->
   runningGameFromLog steamEventRe lines = ""%string)
  ∧ (∀ pre l post a events,
       lines = pre ++ l :: post ->
       steamEventRe l = Some (a, events) -> isRunning events = true ->
       Forall (fun x => is_start steamEventRe x = false) post ->
       runningGameFromLog steamEventRe lines
       = if existsb (mentions steamEventRe a) post then ""%string else a).
Proof.
  unfold runningGameFromLog. split.
  - intros H. rewrite (scan_no_start _ H). by destruct (existsb _ lines).
  - intros pre l post a events -> Hl Hrun Hpost.
    change (pre ++ l :: post) with (pre ++ [l] ++ post).
    rewrite app_assoc, fold_left_app, (scan_start _ _ _ _ _ Hl Hrun).
    by apply scan_no_start.
Qed.

End SteamLog.

Lemma runningGameFromLog_last_witness :
  runningGameFromLog steamEventLine
    ["[2024-05-01 16:00:00] AppID 440 state changed : Fully Installed,App Running,";
     "[2024-05-01 16:30:00] Loaded 3 apps";
     "[2024-05-01 17:00:00] AppID 570 state changed : Fully Installed,App Running,";
     "[2024-05-01 17:45:00] AppID 570 state changed : Fully Installed,"]%string
  = ""%string
  ∧ runningGameFromLog steamEventLine
      ["[2024-05-01 16:00:00] AppID 440 state changed : Fully Installed,App Running,";
       "[2024-05-01 17:45:00] AppID 570 state changed : Fully Installed,"]%string
    = "440"%string.
Proof.
  split.
  - refine (proj2 (runningGameFromLog_last steamEventLine _)
              ["[2024-05-01 16:00:00] AppID 440 state changed : Fully Installed,App Running,";
               "[2024-05-01 16:30:00] Loaded 3 apps"]%string
              _ _ "570"%string "Fully Installed,App Running"%string
              eq_refl _ _ _).
    + vm_compute. reflexivity.
    + reflexivity.
    + repeat constructor.
  - refine (proj2 (runningGameFromLog_last steamEventLine _)
              [] _ _ "440"%string "Fully Installed,App Running"%string
              eq_refl _ _ _).
    + vm_compute. reflexivity.
    + reflexivity.
    + repeat constructor.
Defined.

(** *** The Firefox session *)

Lemma selectedIdx_range (selected : Z) (n : nat) (i : Z) :
  selectedIdx selected n = Some i -> 0 <= i < Z.of_nat n.
Proof.
  unfold selectedIdx.
  destruct (Z.ltb_spec (wrap64 (selected - 1)) 0);
    destruct (Z.geb_spec (wrap64 (selected - 1)) (Z.of_nat n)); cbn [orb];
    first [ intros [= <-]; lia
          | destruct (Z.ltb_spec 0 (Z.of_nat n)); intros [= <-]; lia ].
Qed.

Lemma index_in_range {A : Type} (xs : list A) (i : Z) :
  0 <= i < Z.of_nat (List.length xs) -> is_Some (index xs i).
Proof.
  intros Hi. unfold index. destruct (Z.ltb_spec i 0); [lia|].
  apply lookup_lt_is_Some. change (@length A) with (@List.length A). lia.
Qed.

Lemma index_last {A : Type} (xs : list A) :
  index xs (Z.of_nat (List.length xs) - 1) = last xs.
Proof.
  unfold index. destruct xs as [|x xs] using rev_ind; [done|].
  rewrite last_snoc, List.length_app. cbn [List.length].
  destruct (Z.ltb_spec (Z.of_nat (List.length xs + 1) - 1) 0); [lia|].
  replace (Z.to_nat (Z.of_nat (List.length xs + 1) - 1)) with (List.length xs) by lia.
  by apply list_lookup_middle.
Qed.

Lemma selectedIdx_chosen {A : Type} (selected : Z) (xs : list A) :
  - 2 ^ 63 <= selected < 2 ^ 63 -> Z.of_nat (List.length xs) < 2 ^ 63 ->
  match selectedIdx selected (List.length xs) with
  | None => chosen selected xs = None
  | Some i => index xs i = chosen selected xs
  end.
Proof.
  intros Hsel Hlen. unfold selectedIdx, chosen.
  destruct (Z.eq_dec selected (- 2 ^ 63)) as [->|Hmin].
  - change (wrap64 (- 2 ^ 63 - 1)) with (2 ^ 63 - 1).
    destruct (Z.ltb_spec (2 ^ 63 - 1) 0); [lia|].
    destruct (Z.geb_spec (2 ^ 63 - 1) (Z.of_nat (List.length xs))); [|lia].
    cbn [orb andb]. change (1 <=? - 2 ^ 63) with false. cbn [andb].
    destruct xs; done.
  - assert (wrap64 (selected - 1) = selected - 1) as ->.
    { unfold wrap64. rewrite Z.mod_small; lia. }
    destruct (Z.ltb_spec (selected - 1) 0);
      destruct (Z.geb_spec (selected - 1) (Z.of_nat (List.length xs)));
      destruct (Z.leb_spec 1 selected);
      destruct (Z.leb_spec selected (Z.of_nat (List.length xs)));
      try lia; cbn [orb andb]; try (by destruct xs).
    unfold index. destruct (Z.ltb_spec (selected - 1) 0); [lia|done].
Qed.

(** X18. The tab DetectFirefox reports.  No session makes it index a
    window, a tab or an entry out of range.  For a decoded session (numbers
    and lengths within Go's int) it reports the last history entry of the
    selected tab of the selected window, both counted from 1, taking the
    first window or tab when the number selects none; it fails exactly when
    there is no window, the chosen window has no tab, or the chosen tab has
    no entry. *)
Theorem selectedEntry_selection (session : firefoxSession) :
  selectedEntry session ≠ Panic
  ∧ (fits session = true -> selectedEntry session = selection session).
Proof.
  split.
  - unfold selectedEntry.
    destruct (selectedIdx _ (List.length (Windows session))) as [i|] eqn:Hi; [|done].
    destruct (index_in_range (Windows session) i (selectedIdx_range _ _ _ Hi))
      as [w ->].
    destruct (selectedIdx _ (List.length (Tabs w))) as [j|] eqn:Hj; [|done].
    destruct (index_in_range (Tabs w) j (selectedIdx_range _ _ _ Hj)) as [t ->].
    destruct (Nat.eqb_spec (List.length (Entries t)) 0) as [|Hn]; [done|].
    destruct (index_in_range (Entries t) (Z.of_nat (List.length (Entries t)) - 1))
      as [e ->]; [lia|done].
  - unfold fits, config.fits_int. intros Hfits.
    apply andb_true_iff in Hfits as [Hfits Hall].
    apply andb_true_iff in Hfits as [Hsel Hlen].
    apply andb_true_iff in Hsel as [Hlo Hhi].
    apply Z.leb_le in Hlo. apply Z.ltb_lt in Hhi, Hlen.
    rewrite forallb_forall in Hall.
    unfold selectedEntry, selection.
    pose proof (selectedIdx_chosen (SelectedWindow session) (Windows session)
                  (conj Hlo Hhi) Hlen) as Hw.
    destruct (selectedIdx _ (List.length (Windows session))) as [i|] eqn:Hi;
      [|by rewrite Hw].
    rewrite <- Hw.
    destruct (index_in_range (Windows session) i (selectedIdx_range _ _ _ Hi))
      as [w Hwi].
    rewrite Hwi.
    assert (In w (Windows session)) as Hin.
    { unfold index in Hwi. destruct (i <? 0); [done|].
      apply list_elem_of_In. by eapply list_elem_of_lookup_2. }
    apply Hall in Hin. apply andb_true_iff in Hin as [Hs Hl].
    apply andb_true_iff in Hs as [Hlo' Hhi'].
    apply Z.leb_le in Hlo'. apply Z.ltb_lt in Hhi', Hl.
    pose proof (selectedIdx_chosen (Selected w) (Tabs w) (conj Hlo' Hhi') Hl) as Ht.
    destruct (selectedIdx _ (List.length (Tabs w))) as [j|] eqn:Hj;
      [|by rewrite Ht].
    rewrite <- Ht.
    destruct (index_in_range (Tabs w) j (selectedIdx_range _ _ _ Hj)) as [t ->].
    rewrite index_last.
    destruct (Nat.eqb_spec (List.length (Entries t)) 0) as [Hn|Hn].
    + by destruct (Entries t).
    + destruct (Entries t) as [|e es _] using rev_ind; [done|].
      by rewrite last_snoc.
Qed.

Lemma selectedEntry_selection_witness :
  selectedEntry
    (mkSession
       [mkWindow 1 [mkTab 1 [mkEntry "https://www.khanacademy.org/" "Khan"]];
        mkWindow 2 [mkTab 1 [mkEntry "about:blank" "New Tab"];
                    mkTab 3 [mkEntry "https://example.org/" "Example";
                             mkEntry "https://www.youtube.com/watch" "Video"]]]
       2)
  = Ok (mkEntry "https://www.youtube.com/watch" "Video").
Proof.
  rewrite (proj2 (selectedEntry_selection _)); reflexivity.
Defined.

Example selectedEntry_fallbacks :
  selectedEntry
    (mkSession [mkWindow 7 [mkTab 1 [mkEntry "https://a.example/" "A"];
                            mkTab 1 [mkEntry "https://b.example/" "B"]]] 0)
  = Ok (mkEntry "https://a.example/" "A")
  ∧ selectedEntry (mkSession [] 1) = Err "no windows in session"
  ∧ selectedEntry (mkSession [mkWindow 1 []; mkWindow 1 [mkTab 1 []]] 1)
    = Err "no tabs in window"
  ∧ selectedEntry (mkSession [mkWindow 1 [mkTab 1 []]] (- 2 ^ 63))
    = Err "no entries in tab".
Proof. repeat split; reflexivity. Qed.

(** *** What the poller makes of the agent's answer *)

(** X19. The state of an activity does not reach the server: the agent's
    response carries the id and the name only, and the poller that decodes
    it decides by the name alone.  So the poll result is never offline; it
    is idle only when the trimmed name is empty or one of the idle names;
    and the activities the agent calls idle (no window) and offline (window
    probe failed) are polled as active, under the names No Window and
    Unknown. *)
Theorem agent_state_is_not_polled
    (xmlUnmarshal : string -> option activeAppResponse) (body : string)
    (act : Activity.t) (p : RokuPoller) (now : Time) :
  xmlUnmarshal body = Some (handleActiveApp act) ->
  let polled := Poll xmlUnmarshal p now (Response 200 (ReadAll body)) in
  polled.2 = None
  ∧ PollResult.AppID polled.1 = TrimSpace (Activity.ID act)
  ∧ PollResult.AppName polled.1 = TrimSpace (Activity.Name act)
  ∧ PollResult.State polled.1
    = (if String.eqb (TrimSpace (Activity.Name act)) ""
          || isIdleAppName (TrimSpace (Activity.Name act))
       then "idle" else "active")%string
  ∧ (∀ cfg order tab,
       act = Detect cfg order None (Window None) tab ->
       Activity.State act = "idle"%string
       ∧ polled.1 = PollResult.mk (deviceID p) "idle:no-window" "No Window"
                      "active" now)
  ∧ (∀ cfg order tab,
       act = Detect cfg order None WindowFails tab ->
       Activity.State act = "offline"%string
       ∧ polled.1 = PollResult.mk (deviceID p) "unknown" "Unknown" "active" now).
Proof.
  intros Hxml. cbv zeta. unfold Poll. cbn [negb Z.eqb StatusOK Pos.eqb].
  rewrite Hxml. cbn [handleActiveApp App_ID App_Name fst snd
                     PollResult.AppID PollResult.AppName PollResult.State].
  split; [done|]. split; [done|]. split; [done|]. split; [done|].
  split; intros cfg order tab ->; (split; [done|]); reflexivity.
Qed.

Lemma agent_state_is_not_polled_witness :
  let act := Detect (LinuxConfig.mk ∅ ["screensaver"]%string []) [] None
               (Window None) None in
  let body := encodeActiveApp (handleActiveApp act) in
  Activity.State act = "idle"%string
  ∧ (Poll xmlActiveApp (mkRokuPoller "laptop" "http://10.0.0.7:8060") examples.T0
       (Response 200 (ReadAll body))).1
    = PollResult.mk "laptop" "idle:no-window" "No Window" "active" examples.T0.
Proof.
  cbv zeta.
  refine (proj1 (proj2 (proj2 (proj2 (proj2
            (agent_state_is_not_polled xmlActiveApp _ _
               (mkRokuPoller "laptop" "http://10.0.0.7:8060") examples.T0 _)))))
            (LinuxConfig.mk ∅ ["screensaver"]%string []) [] None eq_refl).
  vm_compute. reflexivity.
Defined.

End AgentLaws.

(** ** The configuration the runner and the handlers work with *)

Module ConfigLaws.

Import time config runner Configuration.

Lemma checkDevices_valid (ds : list DeviceConfig.t) :
  ∀ i, checkDevices i ds = None ->
       Forall (fun d => DeviceConfig.ID d ≠ ""%string
                        ∧ DeviceConfig.BaseURL d ≠ ""%string
                        ∧ 0 < DeviceConfig.PollIntervalSeconds d) ds.
Proof.
  induction ds as [|d ds IH]; intros i H; [constructor|].
  cbn [checkDevices] in H.
  destruct (String.eqb_spec (DeviceConfig.ID d) "") as [|Hid]; [done|].
  destruct (String.eqb_spec (DeviceConfig.BaseURL d) "") as [|Hurl]; [done|].
  destruct (Z.leb_spec (DeviceConfig.PollIntervalSeconds d) 0); [done|].
  constructor; [done|]. by eapply IH.
Qed.

Lemma LoadConfig_inr (f : file) (cfg : Config.t) :
  LoadConfig f = inr cfg ->
  ∃ doc raw,
    f = Document doc ∧ unmarshal doc = Some raw
    ∧ Config.DatabasePath raw ≠ ""%string
    ∧ Config.Devices raw ≠ []
    ∧ checkDevices 0 (Config.Devices raw) = None
    ∧ cfg = Config.mk (Config.DatabasePath raw)
              (if String.eqb (Config.HTTPListen raw) "" then ":8080"%string
               else Config.HTTPListen raw)
              (if Config.DayStartHour raw =? 0 then 7 else Config.DayStartHour raw)
              (Config.Timezone raw) (Config.Devices raw).
Proof.
  destruct f as [| |doc]; [done|done|]. unfold LoadConfig.
  destruct (unmarshal doc) as [raw|] eqn:Hraw; [|done].
  destruct (String.eqb_spec (Config.DatabasePath raw) "") as [|Hdb]; [done|].
  destruct (Nat.eqb_spec (List.length (Config.Devices raw)) 0) as [|Hn]; [done|].
  destruct (checkDevices 0 (Config.Devices raw)) eqn:Hcheck; [done|].
  intros [= <-]. exists doc, raw. split_and!; try done.
  intros Hnil. by rewrite Hnil in Hn.
Qed.

Lemma LoadConfig_devices (f : file) (cfg : Config.t) :
  LoadConfig f = inr cfg ->
  Forall (fun d => DeviceConfig.ID d ≠ ""%string
                   ∧ DeviceConfig.BaseURL d ≠ ""%string
                   ∧ 0 < DeviceConfig.PollIntervalSeconds d)
    (Config.Devices cfg).
Proof.
  intros Hload.
  destruct (LoadConfig_inr f cfg Hload)
    as (doc & raw & -> & Hraw & Hdb & Hds & Hcheck & ->).
  by apply (checkDevices_valid _ 0).
Qed.

(** X20. What LoadConfig lets through.  A configuration that loads has a
    database path, a listen address, a day start hour other than 0, and at
    least one device; every device has an id, a base URL and a poll interval
    above 0.  The day start hour is not checked against the clock: a file
    that loads without the field loads with any hour that fits an int, and
    keeps every hour but 0 as written, 24 and -1 included. *)
Theorem LoadConfig_valid (f : file) (cfg : Config.t) :
  LoadConfig f = inr cfg ->
  Config.DatabasePath cfg ≠ ""%string
  ∧ Config.HTTPListen cfg ≠ ""%string
  ∧ Config.DayStartHour cfg ≠ 0
  ∧ Config.Devices cfg ≠ []
  ∧ Forall (fun d => DeviceConfig.ID d ≠ ""%string
                     ∧ DeviceConfig.BaseURL d ≠ ""%string
                     ∧ 0 < DeviceConfig.PollIntervalSeconds d)
      (Config.Devices cfg)
  ∧ (∀ db listen tz ds h,
       f = Document (mkConfigJSON db listen None tz ds) ->
       fits_int h = true -> h ≠ 0 ->
       ∃ cfg', LoadConfig (Document (mkConfigJSON db listen (Some h) tz ds))
               = inr cfg'
               ∧ Config.DayStartHour cfg' = h).
Proof.
  intros Hload.
  destruct (LoadConfig_inr f cfg Hload)
    as (doc & raw & -> & Hraw & Hdb & Hds & Hcheck & ->).
  cbn [Config.DatabasePath Config.HTTPListen Config.DayStartHour Config.Devices].
  split_and!; try done.
  - by destruct (String.eqb_spec (Config.HTTPListen raw) "").
  - by destruct (Z.eqb_spec (Config.DayStartHour raw) 0).
  - by apply (checkDevices_valid _ 0).
  - intros db listen tz ds h [= ->] Hfit Hh.
    destruct (LoadConfig_loads db listen tz ds h Hfit) as [cfg' Hcfg']; [eauto|].
    exists cfg'. split; [done|].
    rewrite (LoadConfig_DayStartHour _ _ Hcfg'). cbn [day_start_hour].
    by destruct (Z.eqb_spec h 0).
Qed.

Lemma LoadConfig_valid_witness :
  ∃ cfg', LoadConfig (Document (agents.with_hour (Some 24))) = inr cfg'
          ∧ Config.DayStartHour cfg' = 24.
Proof.
  refine (proj2 (proj2 (proj2 (proj2 (proj2
            (LoadConfig_valid (Document (agents.with_hour None)) _ eq_refl)))))
            _ _ _ _ 24 eq_refl eq_refl _).
  discriminate.
Defined.

(** X21. The ticker of runDevice.  For a device of a loaded configuration
    whose poll interval is at most 9223372036 seconds, the interval of the
    ticker is that many seconds and is positive.  Above that the product
    with time.Second overflows: a configuration with a poll interval of
    9223372037 seconds loads and gives a negative interval. *)
Theorem interval_positive (f : file) (cfg : Config.t) (d : DeviceConfig.t) :
  (LoadConfig f = inr cfg -> d ∈ Config.Devices cfg ->
   DeviceConfig.PollIntervalSeconds d <= 9223372036 ->
   interval d = DeviceConfig.PollIntervalSeconds d * Second ∧ 0 < interval d)
  ∧ ∃ cfg' d',
      LoadConfig (Document scenarios.overflowing) = inr cfg'
      ∧ d' ∈ Config.Devices cfg' ∧ interval d' < 0.
Proof.
  split.
  - intros Hload Hd Hmax.
    pose proof (LoadConfig_devices f cfg Hload) as Hall.
    rewrite Forall_forall in Hall. destruct (Hall d Hd) as (_ & _ & Hpos).
    unfold interval, Second.
    rewrite Usage.wrap64_id by lia. lia.
  - eexists _, _. split; [reflexivity|]. split; [by left|]. reflexivity.
Qed.

Lemma interval_positive_witness :
  interval (DeviceConfig.mk "tv" "http://192.168.1.20:8060" 5 []) = 5 * Second
  ∧ 0 < interval (DeviceConfig.mk "tv" "http://192.168.1.20:8060" 5 []).
Proof.
  refine (proj1 (interval_positive (Document (agents.with_hour None)) _ _)
            eq_refl _ _).
  - by left.
  - cbn. lia.
Defined.

End ConfigLaws.

(** ** The usage view of the HTTP server *)

Module ViewLaws.

Import time storage spec handlers gostrings2 Usage UsageLaws.

(** *** start_hour *)

(** X22. The day start hour of a usage request.  It is the hour of the
    configuration unless the parameter start_hour is an integer from 0 to
    23, which then replaces it, 0 included; so it is within 0..23 whenever
    the configured hour is. *)
Theorem dayStartHour_override (cfgHour : Z) (start_hour : string) :
  (dayStartHour cfgHour start_hour ≠ cfgHour ->
   Atoi start_hour = Some (dayStartHour cfgHour start_hour)
   ∧ 0 <= dayStartHour cfgHour start_hour < 24)
  ∧ (0 <= cfgHour < 24 -> 0 <= dayStartHour cfgHour start_hour < 24)
  ∧ (∀ h, 0 <= h < 24 -> dayStartHour cfgHour (pretty h) = h).
Proof.
  assert (dayStartHour cfgHour start_hour = cfgHour
          ∨ (Atoi start_hour = Some (dayStartHour cfgHour start_hour)
             ∧ 0 <= dayStartHour cfgHour start_hour < 24)) as Hcases.
  { unfold dayStartHour. destruct (String.eqb start_hour ""); [by left|].
    destruct (Atoi start_hour) as [h|]; [|by left].
    destruct (Z.leb_spec 0 h); destruct (Z.ltb_spec h 24); cbn [andb];
      try (by left).
    right. split; [done|lia]. }
  split; [|split].
  - intros Hne. by destruct Hcases.
  - intros Hcfg. destruct Hcases as [->|[_ H]]; done.
  - intros h Hh.
    assert (h = 0 ∨ h = 1 ∨ h = 2 ∨ h = 3 ∨ h = 4 ∨ h = 5 ∨ h = 6 ∨ h = 7
            ∨ h = 8 ∨ h = 9 ∨ h = 10 ∨ h = 11 ∨ h = 12 ∨ h = 13 ∨ h = 14
            ∨ h = 15 ∨ h = 16 ∨ h = 17 ∨ h = 18 ∨ h = 19 ∨ h = 20 ∨ h = 21
            ∨ h = 22 ∨ h = 23) as Henum by lia.
    repeat (destruct Henum as [->|Henum]; [vm_compute; reflexivity|]).
    subst h. vm_compute. reflexivity.
Qed.

Lemma dayStartHour_override_witness :
  dayStartHour 7 "0" = 0 ∧ dayStartHour 7 "24" = 7
  ∧ dayStartHour 7 "-1" = 7 ∧ dayStartHour 7 "six" = 7
  ∧ 0 <= dayStartHour 7 "031" < 24.
Proof.
  split; [|split; [|split; [|split]]].
  - refine (proj2 (proj2 (dayStartHour_override 7 "0")) 0 _). lia.
  - reflexivity.
  - reflexivity.
  - reflexivity.
  - refine (proj1 (proj2 (dayStartHour_override 7 "031")) _). lia.
Defined.

(** *** Grouping by device *)

Lemma deviceMap_fold (entries : list UsageEntry.t) (d : string) :
  ∀ m : gmap string (list appUsage.t),
    fold_left
      (fun m e => <[UsageEntry.DeviceID e :=
                      default [] (m !! UsageEntry.DeviceID e) ++ [toAppUsage e]]> m)
      entries m !! d
    = match filter (fun e => UsageEntry.DeviceID e = d) entries with
      | [] => m !! d
      | l => Some (default [] (m !! d) ++ (toAppUsage <$> l))
      end.
Proof.
  induction entries as [|e entries IH]; intros m; [done|].
  cbn [fold_left]. rewrite IH. rewrite filter_cons.
  case_decide as Hd.
  - subst d. rewrite lookup_insert_eq. cbn [default].
    destruct (filter _ entries) as [|x l]; [done|].
    unfold id. by rewrite <- app_assoc.
  - by rewrite lookup_insert_ne.
Qed.

(** X23. The grouping of handleUsageToday.  A device is listed exactly when
    the report has an entry of it, and once; its apps are the entries of the
    report for that device, in the order of the report, none lost and none
    repeated. *)
Theorem deviceUsage_groups (entries : list UsageEntry.t) :
  (∀ d, deviceMap entries !! d
        = match filter (fun e => UsageEntry.DeviceID e = d) entries with
          | [] => None
          | l => Some (toAppUsage <$> l)
          end)
  ∧ NoDup (deviceUsage entries).*1
  ∧ (∀ d apps,
       (d, apps) ∈ deviceUsage entries
       ↔ apps ≠ []
         ∧ apps = toAppUsage <$> filter (fun e => UsageEntry.DeviceID e = d) entries).
Proof.
  assert (∀ d, deviceMap entries !! d
        = match filter (fun e => UsageEntry.DeviceID e = d) entries with
          | [] => None
          | l => Some (toAppUsage <$> l)
          end) as Hlookup.
  { intros d. unfold deviceMap. rewrite deviceMap_fold, lookup_empty.
    by destruct (filter _ entries). }
  split; [exact Hlookup|]. split; [apply NoDup_fst_map_to_list|].
  intros d apps. unfold deviceUsage. rewrite elem_of_map_to_list, Hlookup.
  destruct (filter _ entries) as [|x l]; split.
  - done.
  - by intros [Hne ->].
  - by intros [= <-].
  - by intros [_ ->].
Qed.

Example deviceUsage_report :
  deviceMap scenarios.report !! "tv"%string
  = Some [appUsage.mk "12" "Netflix" 5400 1 30; appUsage.mk "837" "YouTube" 59 0 0]
  ∧ deviceMap scenarios.report !! "laptop"%string
    = Some [appUsage.mk "browser:homework" "khanacademy.org" 3725 1 2]
  ∧ deviceMap scenarios.report !! "phone"%string = None.
Proof. repeat split; vm_compute; reflexivity. Qed.

(** *** Hours and minutes *)

(** X24. The duration shown for an entry of a usage report (window not
    empty, fewer than 2^29 rows in the store): the total is not negative,
    the minutes are within 0..59, and hours and minutes are the total
    rounded down to the minute. *)
Theorem usage_view_durations (db : DB) (start end_ : Time)
    (deviceID : option string) :
  start < end_ ->
  Z.of_nat (List.length (sessions db) + List.length (current_sessions db))
  < 2 ^ 29 ->
  ∃ out,
    GetUsageBetween no_faults db start end_ deviceID = inr out
    ∧ ∀ e, e ∈ out ->
        let v := toAppUsage e in
        appUsage.TotalSeconds v = UsageEntry.TotalSeconds e
        ∧ 0 <= appUsage.TotalSeconds v
        ∧ 0 <= appUsage.Hours v
        ∧ 0 <= appUsage.Minutes v < 60
        ∧ appUsage.Hours v * 3600 + appUsage.Minutes v * 60
          <= appUsage.TotalSeconds v
          < appUsage.Hours v * 3600 + appUsage.Minutes v * 60 + 60.
Proof.
  intros Hlt Hrows.
  destruct (GetUsageBetween_exact db start end_ deviceID Hlt Hrows)
    as (out & Hout & Htotals).
  exists out. split; [done|]. intros e He.
  assert (0 <= UsageEntry.TotalSeconds e) as Hpos.
  { rewrite (GetUsageBetween_runs db start end_ deviceID Hlt) in Hout.
    injection Hout as <-.
    apply list_elem_of_fmap in He as ([k v] & -> & Hin).
    apply elem_of_map_to_list in Hin.
    pose proof (Htotals k) as Hk. rewrite total_for_map, Hin in Hk.
    cbn in Hk |- *. rewrite Hk.
    apply usage_bounds. }
  cbv zeta. unfold toAppUsage.
  cbn [appUsage.TotalSeconds appUsage.Hours appUsage.Minutes].
  split; [done|]. split; [done|].
  Z.to_euclidean_division_equations. lia.
Qed.

Lemma usage_view_durations_witness :
  ∃ out,
    GetUsageBetween no_faults examples.ledger examples.T0 (examples.after 3600)
      None = inr out
    ∧ ∀ e, e ∈ out -> 0 <= appUsage.Minutes (toAppUsage e) < 60.
Proof.
  destruct (usage_view_durations examples.ledger examples.T0
              (examples.after 3600) None) as (out & Hout & H).
  - vm_compute. reflexivity.
  - vm_compute. reflexivity.
  - exists out. split; [exact Hout|]. intros e He. apply (H e He).
Defined.

End ViewLaws.
